(** * The streaming chat session hook (frontend/src/hooks/useChat.ts)

    A shallow embedding of [useChat]: the transcript and session state the
    hook keeps, its four callbacks ([sendMessage], [stopStreaming],
    [resetChat], [regenerateLastResponse]) and the read loop that decodes the
    server-sent stream, followed by the properties of the session manager.

    Strings are Rocq strings read as UTF-8 text.  The hook is an async
    function: [sendMessage] below is its synchronous prefix, and what runs
    after each [await] is a function of the value the awaited promise settles
    with ([resume]). *)

From Stdlib Require Import String Ascii List ZArith NArith Bool Lia DecimalString.
Import ListNotations.
Open Scope string_scope.

(** ** ECMAScript primitives the hook calls *)

Module JS.

Definition code (a : ascii) : N := N_of_ascii a.

(** One-byte white space and line terminators: TAB, LF, VT, FF, CR, SP. *)
Definition ws1 (a : ascii) : bool :=
  let n := code a in ((9 <=? n) && (n <=? 13) || (n =? 32))%N.

(** U+00A0 in UTF-8. *)
Definition ws2 (a b : ascii) : bool :=
  ((code a =? 194) && (code b =? 160))%N.

(** The three-byte white space and line terminators: U+1680, U+2000 to
    U+200A, U+2028, U+2029, U+202F, U+205F, U+3000 and U+FEFF. *)
Definition ws3 (a b c : ascii) : bool :=
  let x := code a in let y := code b in let z := code c in
  ((x =? 225) && (y =? 154) && (z =? 128)
   || (x =? 226) && (y =? 128)
      && ((128 <=? z) && (z <=? 138) || (z =? 168) || (z =? 169) || (z =? 175))
   || (x =? 226) && (y =? 129) && (z =? 159)
   || (x =? 227) && (y =? 128) && (z =? 128)
   || (x =? 239) && (y =? 187) && (z =? 191))%N.

(** Drops leading white space; [w2] and [w3] recognise the multi-byte forms in
    the order the bytes are met. *)
Fixpoint dropSpace (w2 : ascii -> ascii -> bool)
  (w3 : ascii -> ascii -> ascii -> bool) (s : string) : string :=
  match s with
  | String a r1 =>
      if ws1 a then dropSpace w2 w3 r1
      else
        match r1 with
        | String b r2 =>
            if w2 a b then dropSpace w2 w3 r2
            else
              match r2 with
              | String c r3 => if w3 a b c then dropSpace w2 w3 r3 else s
              | EmptyString => s
              end
        | EmptyString => s
        end
  | EmptyString => s
  end.

Definition reverse (s : string) : string :=
  string_of_list_ascii (rev (list_ascii_of_string s)).

(** [String.prototype.trimStart], [trimEnd] and [trim]. *)
Definition trimStart (s : string) : string := dropSpace ws2 ws3 s.

Definition trimEnd (s : string) : string :=
  reverse (dropSpace (fun a b => ws2 b a) (fun a b c => ws3 c b a) (reverse s)).

Definition trim (s : string) : string := trimEnd (trimStart s).

(** [s.startsWith(p)]. *)
Definition startsWith (p s : string) : bool := String.prefix p s.

(** [s.slice(n)] for an [s] whose first [n] characters are ASCII, which is
    how the hook calls it (after [startsWith] succeeded on an ASCII prefix). *)
Fixpoint slice (n : nat) (s : string) : string :=
  match n, s with
  | S n', String _ r => slice n' r
  | _, _ => s
  end.

(** [s.split(LF)]: the pieces between line feeds; never empty. *)
Fixpoint split (s : string) : list string :=
  match s with
  | EmptyString => [EmptyString]
  | String a r =>
      if (code a =? 10)%N then EmptyString :: split r
      else
        match split r with
        | h :: t => String a h :: t
        | [] => [String a EmptyString]
        end
  end.

#[local] Set Warnings "-register-all".

(** The values [JSON.parse] returns.  A number is carried by the text
    [Number.prototype.toString] gives for it: the hook only ever coerces a
    number to a string or tests its truthiness, and both are functions of that
    text.  An object is the list of its members in source order; a key that
    occurs twice is bound to its last value. *)
Inductive JSON : Type :=
| JNull
| JBool (b : bool)
| JNum (shown : string)
| JStr (s : string)
| JArr (items : list JSON)
| JObj (members : list (string * JSON)).

(** A JavaScript value that came out of JSON: [None] is [undefined]. *)
Definition Value : Type := option JSON.

Definition undefined : Value := None.

(** Own property lookup in a member list. *)
Fixpoint lookup (key : string) (members : list (string * JSON)) : Value :=
  match members with
  | [] => None
  | (k, v) :: rest =>
      match lookup key rest with
      | Some v' => Some v'
      | None => if String.eqb k key then Some v else None
      end
  end.

(** What a callee can throw at the hook. *)
Inductive Exn : Type :=
| SyntaxError
| TypeError
| AbortError
| Error (message : string).

(** The outcome of a fallible expression. *)
Inductive Outcome (A : Type) : Type :=
| Returns (a : A)
| Throws (e : Exn).

Arguments Returns {A} a.
Arguments Throws {A} e.

(** [parsed.key] for one of the keys the hook reads ([type], [content],
    [sources], [conversation_id], [message]): none of them is inherited from a
    prototype, so only an object can have it, and reading a property of
    [null] throws. *)
Definition get (parsed : JSON) (key : string) : Outcome Value :=
  match parsed with
  | JNull => Throws TypeError
  | JObj members => Returns (lookup key members)
  | _ => Returns undefined
  end.

(** [v === s] for a string [s]. *)
Definition strictEquals (v : Value) (s : string) : bool :=
  match v with
  | Some (JStr s') => String.eqb s' s
  | _ => false
  end.

(** [!v]. *)
Definition falsy (v : Value) : bool :=
  match v with
  | None => true
  | Some JNull => true
  | Some (JBool b) => negb b
  | Some (JNum shown) => String.eqb shown "0"
  | Some (JStr s) => String.eqb s ""
  | Some (JArr _) => false
  | Some (JObj _) => false
  end.

Definition hasOwn (key : string) (members : list (string * JSON)) : bool :=
  existsb (fun kv => String.eqb (fst kv) key) members.

(** [Array.prototype.join] with a comma, given the elements' strings. *)
Fixpoint join (parts : list string) : string :=
  match parts with
  | [] => ""
  | [p] => p
  | p :: rest => p ++ "," ++ join rest
  end.

Fixpoint sequence {A : Type} (l : list (option A)) : option (list A) :=
  match l with
  | [] => Some []
  | None :: _ => None
  | Some a :: rest =>
      match sequence rest with
      | Some r => Some (a :: r)
      | None => None
      end
  end.

(** [ToString] of a value parsed from JSON; [None] when it throws a
    [TypeError], which an object does when it has an own [toString] member
    (not callable, and [valueOf] then yields no primitive). *)
Fixpoint toStringJSON (v : JSON) : option string :=
  match v with
  | JNull => Some "null"
  | JBool true => Some "true"
  | JBool false => Some "false"
  | JNum shown => Some shown
  | JStr s => Some s
  | JArr items =>
      option_map join
        (sequence
           (map (fun x => match x with
                          | JNull => Some ""
                          | _ => toStringJSON x
                          end) items))
  | JObj members =>
      if hasOwn "toString" members then None else Some "[object Object]"
  end.

Definition toString (v : Value) : Outcome string :=
  match v with
  | None => Returns "undefined"
  | Some j =>
      match toStringJSON j with
      | Some s => Returns s
      | None => Throws TypeError
      end
  end.

End JS.

(** ** A JSON reader to run the hook on concrete streams

    The hook below takes [JSON.parse] as a parameter.  [Reader.parse] is the
    instance the worked streams are run with: a reader for JSON texts whose
    numbers are integer literals of magnitude at most 2^53 and whose escapes
    name no surrogate; it answers [None] where [JSON.parse] throws, and on
    the texts outside that fragment. *)

Module Reader.

Import JS.

Definition at_ (n : N) (a : ascii) : bool := (code a =? n)%N.

Definition isSpace (a : ascii) : bool :=
  at_ 9 a || at_ 10 a || at_ 13 a || at_ 32 a.

Definition isDigit (a : ascii) : bool := ((48 <=? code a) && (code a <=? 57))%N.

Fixpoint skip (s : string) : string :=
  match s with
  | String a r => if isSpace a then skip r else s
  | EmptyString => s
  end.

Definition hex (a : ascii) : option N :=
  let n := code a in
  if ((48 <=? n) && (n <=? 57))%N then Some (n - 48)%N
  else if ((65 <=? n) && (n <=? 70))%N then Some (n - 55)%N
  else if ((97 <=? n) && (n <=? 102))%N then Some (n - 87)%N
  else None.

Definition hex4 (a b c d : ascii) : option N :=
  match hex a, hex b, hex c, hex d with
  | Some x, Some y, Some z, Some w => Some (((x * 16 + y) * 16 + z) * 16 + w)%N
  | _, _, _, _ => None
  end.

Definition byte (n : N) : string := String (ascii_of_N n) EmptyString.

(** UTF-8 of a code point of the basic plane that is no surrogate. *)
Definition utf8 (n : N) : option string :=
  if (n <? 128)%N then Some (byte n)
  else if (n <? 2048)%N then Some (byte (192 + n / 64) ++ byte (128 + n mod 64))
  else if ((55296 <=? n) && (n <=? 57343))%N then None
  else Some (byte (224 + n / 4096) ++ byte (128 + (n / 64) mod 64)
             ++ byte (128 + n mod 64)).

Definition escape (a : ascii) : option string :=
  let n := code a in
  if (n =? 34)%N then Some (byte 34)
  else if (n =? 92)%N then Some (byte 92)
  else if (n =? 47)%N then Some (byte 47)
  else if (n =? 98)%N then Some (byte 8)
  else if (n =? 102)%N then Some (byte 12)
  else if (n =? 110)%N then Some (byte 10)
  else if (n =? 114)%N then Some (byte 13)
  else if (n =? 116)%N then Some (byte 9)
  else None.

Definition cons_ (p : string) (r : option (string * string))
  : option (string * string) :=
  match r with
  | Some (str, rest) => Some (p ++ str, rest)
  | None => None
  end.

(** The characters of a string literal after its opening quote, and what
    follows the closing quote. *)
Fixpoint chars (s : string) : option (string * string) :=
  match s with
  | EmptyString => None
  | String a r =>
      if at_ 34 a then Some (EmptyString, r)
      else if at_ 92 a then
        match r with
        | String e r1 =>
            if at_ 117 e then
              match r1 with
              | String h1 (String h2 (String h3 (String h4 r5))) =>
                  match hex4 h1 h2 h3 h4 with
                  | Some n =>
                      match utf8 n with
                      | Some u => cons_ u (chars r5)
                      | None => None
                      end
                  | None => None
                  end
              | _ => None
              end
            else
              match escape e with
              | Some u => cons_ u (chars r1)
              | None => None
              end
        | EmptyString => None
        end
      else if (code a <? 32)%N then None
      else cons_ (String a EmptyString) (chars r)
  end.

Fixpoint digits (s : string) : string * string :=
  match s with
  | String a r =>
      if isDigit a then let (ds, rest) := digits r in (String a ds, rest)
      else (EmptyString, s)
  | EmptyString => (EmptyString, s)
  end.

Fixpoint magnitude (acc : N) (ds : string) : N :=
  match ds with
  | String a r => magnitude (acc * 10 + (code a - 48))%N r
  | EmptyString => acc
  end.

Definition number (s : string) : option (JSON * string) :=
  let (neg, s1) :=
    match s with
    | String a r => if at_ 45 a then (true, r) else (false, s)
    | EmptyString => (false, s)
    end in
  let (ds, rest) := digits s1 in
  let continued :=
    match rest with
    | String a _ => at_ 46 a || at_ 101 a || at_ 69 a
    | EmptyString => false
    end in
  match ds with
  | EmptyString => None
  | String d more =>
      if at_ 48 d && negb (String.eqb more EmptyString) then None
      else if continued then None
      else if (9007199254740992 <? magnitude 0 ds)%N then None
      else if neg && negb (magnitude 0 ds =? 0)%N
           then Some (JNum (byte 45 ++ ds), rest)
           else Some (JNum ds, rest)
  end.

Definition literal (word : string) (v : JSON) (s : string)
  : option (JSON * string) :=
  if String.prefix word s then Some (v, slice (String.length word) s) else None.

Fixpoint value (fuel : nat) (s : string) : option (JSON * string) :=
  match fuel with
  | O => None
  | S f =>
      match skip s with
      | EmptyString => None
      | String a r =>
          if at_ 123 a then
            match skip r with
            | String b r' =>
                if at_ 125 b then Some (JObj [], r')
                else
                  match members f r with
                  | Some (ms, rest) => Some (JObj ms, rest)
                  | None => None
                  end
            | EmptyString => None
            end
          else if at_ 91 a then
            match skip r with
            | String b r' =>
                if at_ 93 b then Some (JArr [], r')
                else
                  match elements f r with
                  | Some (vs, rest) => Some (JArr vs, rest)
                  | None => None
                  end
            | EmptyString => None
            end
          else if at_ 34 a then
            match chars r with
            | Some (str, rest) => Some (JStr str, rest)
            | None => None
            end
          else if at_ 116 a then literal "true" (JBool true) (String a r)
          else if at_ 102 a then literal "false" (JBool false) (String a r)
          else if at_ 110 a then literal "null" JNull (String a r)
          else number (String a r)
      end
  end
with elements (fuel : nat) (s : string) : option (list JSON * string) :=
  match fuel with
  | O => None
  | S f =>
      match value f s with
      | Some (v, r) =>
          match skip r with
          | String b r' =>
              if at_ 44 b then
                match elements f r' with
                | Some (vs, rest) => Some (v :: vs, rest)
                | None => None
                end
              else if at_ 93 b then Some ([v], r')
              else None
          | EmptyString => None
          end
      | None => None
      end
  end
with members (fuel : nat) (s : string)
  : option (list (string * JSON) * string) :=
  match fuel with
  | O => None
  | S f =>
      match skip s with
      | String q r =>
          if at_ 34 q then
            match chars r with
            | Some (k, r1) =>
                match skip r1 with
                | String c r2 =>
                    if at_ 58 c then
                      match value f r2 with
                      | Some (v, r3) =>
                          match skip r3 with
                          | String b r4 =>
                              if at_ 44 b then
                                match members f r4 with
                                | Some (ms, rest) => Some ((k, v) :: ms, rest)
                                | None => None
                                end
                              else if at_ 125 b then Some ([(k, v)], r4)
                              else None
                          | EmptyString => None
                          end
                      | None => None
                      end
                    else None
                | EmptyString => None
                end
            | None => None
            end
          else None
      | EmptyString => None
      end
  end.

Definition parse (text : string) : option JSON :=
  match value (S (String.length text)) text with
  | Some (v, rest) =>
      match skip rest with
      | EmptyString => Some v
      | String _ _ => None
      end
  | None => None
  end.

(** Writes the double quotes of a JSON text as apostrophes in the examples. *)
Fixpoint q (s : string) : string :=
  match s with
  | String a r => String (if at_ 39 a then ascii_of_N 34 else a) (q r)
  | EmptyString => EmptyString
  end.

End Reader.

(** ** The data model of the hook *)

Import JS.

Inductive Role : Type := user | assistant.

Definition Role_eqb (a b : Role) : bool :=
  match a, b with
  | user, user | assistant, assistant => true
  | _, _ => false
  end.

(** [interface Message].  [sources] holds whatever the stream sent as the
    citation list ([None] while the field is absent); [timestamp] is a [Date]
    in milliseconds; [isStreaming] is absent on user messages. *)
Record Message : Type := {
  id : string;
  role : Role;
  content : string;
  sources : Value;
  timestamp : Z;
  isStreaming : option bool;
}.

(** [{ ...m, content: c }], [{ ...m, isStreaming: b }] and the like. *)
Definition withContent (c : string) (m : Message) : Message :=
  {| id := id m; role := role m; content := c; sources := sources m;
     timestamp := timestamp m; isStreaming := isStreaming m |}.

Definition withSources (v : Value) (m : Message) : Message :=
  {| id := id m; role := role m; content := content m; sources := v;
     timestamp := timestamp m; isStreaming := isStreaming m |}.

Definition withIsStreaming (b : bool) (m : Message) : Message :=
  {| id := id m; role := role m; content := content m; sources := sources m;
     timestamp := timestamp m; isStreaming := Some b |}.

(** An [AbortController], by the order of its construction. *)
Definition Controller : Type := nat.

(** The body of one request to the answering service, and its bearer header. *)
Module Request.
Record t : Type := {
  message : string;
  conversation_id : Value;
  authorization : option string;
}.
End Request.

(** The state of one [useChat] instance ([messages], [isLoading],
    [conversationId], [abortControllerRef]) and the trace it leaves on its
    collaborators. *)
Record Hook : Type := {
  messages : list Message;
  isLoading : bool;
  conversationId : Value;
  abortControllerRef : option Controller;
  controllers : nat;          (* abort controllers constructed so far *)
  aborted : list Controller;  (* the ones whose abort() was called *)
  requests : list Request.t;  (* fetch calls, oldest first *)
  created : list Value;       (* options.onConversationCreated calls *)
  toasts : list string;       (* toast.error calls *)
  invalidated : nat;          (* queryClient.invalidateQueries calls *)
}.

(** What a callback reads from the render that created it: the state
    variables are constants of that render, so a running call keeps seeing
    them whatever the setters do meanwhile. *)
Module Seen.
Record t : Type := {
  messages : list Message;
  isLoading : bool;
  conversationId : Value;
}.
End Seen.

(** The callbacks of the render that shows state [st]. *)
Definition render (st : Hook) : Seen.t :=
  {| Seen.messages := messages st; Seen.isLoading := isLoading st;
     Seen.conversationId := conversationId st |}.

(** What one call of [sendMessage] draws from outside: two identifiers from
    [generateId], two dates, and the stored access token. *)
Module Fresh.
Record t : Type := {
  userId : string;
  userTime : Z;
  assistantId : string;
  assistantTime : Z;
  access_token : option string;
}.
End Fresh.

(** The locals of one [sendMessage] call once it awaits the network. *)
Module Call.
Record t : Type := {
  assistantId : string;
  controller : Controller;
  conversationId : Value;  (* the render's conversationId *)
  fullContent : string;
  sources : Value;
  newConvId : Value;
}.
End Call.

(** What an awaited promise settles with: the response of [fetch], a read of
    the body (the text the decoder gives for the chunk, or the end), or a
    rejection. *)
Inductive Settled : Type :=
| Response (ok : bool) (status : nat) (body : bool)
| Chunk (text : string)
| Done
| Rejected (e : Exn).

(** A statement that completes or throws, with the state it leaves. *)
Inductive Exit (S : Type) : Type :=
| Normal (s : S)
| Thrown (e : Exn) (s : S).

Arguments Normal {S} s.
Arguments Thrown {S} e s.

(** ** State updates *)

Definition setMessages (f : list Message -> list Message) (st : Hook) : Hook :=
  {| messages := f (messages st); isLoading := isLoading st;
     conversationId := conversationId st;
     abortControllerRef := abortControllerRef st;
     controllers := controllers st; aborted := aborted st;
     requests := requests st; created := created st; toasts := toasts st;
     invalidated := invalidated st |}.

Definition setIsLoading (b : bool) (st : Hook) : Hook :=
  {| messages := messages st; isLoading := b;
     conversationId := conversationId st;
     abortControllerRef := abortControllerRef st;
     controllers := controllers st; aborted := aborted st;
     requests := requests st; created := created st; toasts := toasts st;
     invalidated := invalidated st |}.

Definition setConversationId (v : Value) (st : Hook) : Hook :=
  {| messages := messages st; isLoading := isLoading st;
     conversationId := v;
     abortControllerRef := abortControllerRef st;
     controllers := controllers st; aborted := aborted st;
     requests := requests st; created := created st; toasts := toasts st;
     invalidated := invalidated st |}.

Definition setRef (r : option Controller) (st : Hook) : Hook :=
  {| messages := messages st; isLoading := isLoading st;
     conversationId := conversationId st;
     abortControllerRef := r;
     controllers := controllers st; aborted := aborted st;
     requests := requests st; created := created st; toasts := toasts st;
     invalidated := invalidated st |}.

(** [new AbortController()], stored in the ref. *)
Definition newController (st : Hook) : Hook :=
  {| messages := messages st; isLoading := isLoading st;
     conversationId := conversationId st;
     abortControllerRef := Some (controllers st);
     controllers := S (controllers st); aborted := aborted st;
     requests := requests st; created := created st; toasts := toasts st;
     invalidated := invalidated st |}.

(** [if (abortControllerRef.current) abortControllerRef.current.abort()]. *)
Definition abortCurrent (st : Hook) : Hook :=
  match abortControllerRef st with
  | Some c =>
      {| messages := messages st; isLoading := isLoading st;
         conversationId := conversationId st;
         abortControllerRef := abortControllerRef st;
         controllers := controllers st; aborted := c :: aborted st;
         requests := requests st; created := created st; toasts := toasts st;
         invalidated := invalidated st |}
  | None => st
  end.

Definition fetch (r : Request.t) (st : Hook) : Hook :=
  {| messages := messages st; isLoading := isLoading st;
     conversationId := conversationId st;
     abortControllerRef := abortControllerRef st;
     controllers := controllers st; aborted := aborted st;
     requests := requests st ++ [r]; created := created st;
     toasts := toasts st; invalidated := invalidated st |}.

(** [options.onConversationCreated?.(v)]. *)
Definition onConversationCreated (v : Value) (st : Hook) : Hook :=
  {| messages := messages st; isLoading := isLoading st;
     conversationId := conversationId st;
     abortControllerRef := abortControllerRef st;
     controllers := controllers st; aborted := aborted st;
     requests := requests st; created := created st ++ [v];
     toasts := toasts st; invalidated := invalidated st |}.

Definition toast_error (text : string) (st : Hook) : Hook :=
  {| messages := messages st; isLoading := isLoading st;
     conversationId := conversationId st;
     abortControllerRef := abortControllerRef st;
     controllers := controllers st; aborted := aborted st;
     requests := requests st; created := created st;
     toasts := toasts st ++ [text]; invalidated := invalidated st |}.

Definition invalidateQueries (st : Hook) : Hook :=
  {| messages := messages st; isLoading := isLoading st;
     conversationId := conversationId st;
     abortControllerRef := abortControllerRef st;
     controllers := controllers st; aborted := aborted st;
     requests := requests st; created := created st;
     toasts := toasts st; invalidated := S (invalidated st) |}.

Definition setFullContent (s : string) (c : Call.t) : Call.t :=
  {| Call.assistantId := Call.assistantId c; Call.controller := Call.controller c;
     Call.conversationId := Call.conversationId c; Call.fullContent := s;
     Call.sources := Call.sources c; Call.newConvId := Call.newConvId c |}.

Definition setSources (v : Value) (c : Call.t) : Call.t :=
  {| Call.assistantId := Call.assistantId c; Call.controller := Call.controller c;
     Call.conversationId := Call.conversationId c;
     Call.fullContent := Call.fullContent c;
     Call.sources := v; Call.newConvId := Call.newConvId c |}.

Definition setNewConvId (v : Value) (c : Call.t) : Call.t :=
  {| Call.assistantId := Call.assistantId c; Call.controller := Call.controller c;
     Call.conversationId := Call.conversationId c;
     Call.fullContent := Call.fullContent c;
     Call.sources := Call.sources c; Call.newConvId := v |}.

(** [prev.map((m) => m.id === assistantId ? f(m) : m)]. *)
Definition mapAt (assistantId : string) (f : Message -> Message)
  (prev : list Message) : list Message :=
  map (fun m => if String.eqb (id m) assistantId then f m else m) prev.

(** ** The hook *)

Definition failureText : string :=
  "Desolee, une erreur s'est produite. Veuillez reessayer.".

Definition toastText : string :=
  "Erreur lors de la communication avec le serveur".

(** [useChat(options)] before any call. *)
Definition useChat (options_conversationId : Value) : Hook :=
  {| messages := []; isLoading := false;
     conversationId := options_conversationId;
     abortControllerRef := None; controllers := 0; aborted := [];
     requests := []; created := []; toasts := []; invalidated := 0 |}.

(** [sendMessage] up to its first [await] (lines 45 to 97): the guard, the
    cancellation of a registered controller, the user message, the
    placeholder and the request.  [None]: the call returned at the guard. *)
Definition sendMessage (seen : Seen.t) (fresh : Fresh.t) (content : string)
  (st : Hook) : Hook * option Call.t :=
  if String.eqb (trim content) "" || Seen.isLoading seen then (st, None)
  else
    let st := abortCurrent st in
    let controller := controllers st in
    let st := newController st in
    let userMessage :=
      {| id := Fresh.userId fresh; role := user; content := trim content;
         sources := undefined; timestamp := Fresh.userTime fresh;
         isStreaming := None |} in
    let st := setMessages (fun prev => (prev ++ [userMessage])%list) st in
    let st := setIsLoading true st in
    let assistantId := Fresh.assistantId fresh in
    let assistantMessage :=
      {| id := assistantId; role := assistant; content := "";
         sources := undefined; timestamp := Fresh.assistantTime fresh;
         isStreaming := Some true |} in
    let st := setMessages (fun prev => (prev ++ [assistantMessage])%list) st in
    let authorization :=
      match Fresh.access_token fresh with
      | Some token =>
          if String.eqb token "" then None else Some ("Bearer " ++ token)
      | None => None
      end in
    let st :=
      fetch {| Request.message := trim content;
               Request.conversation_id := Seen.conversationId seen;
               Request.authorization := authorization |} st in
    (st,
     Some {| Call.assistantId := assistantId;
             Call.controller := controller;
             Call.conversationId := Seen.conversationId seen;
             Call.fullContent := "";
             Call.sources := Some (JArr []);
             Call.newConvId := undefined |}).

(** [catch (e) { }] of line 146: whatever the body threw is dropped, and
    the state it had reached stays. *)
Definition ignore {S : Type} (x : Exit S) : S :=
  match x with
  | Normal s => s
  | Thrown _ s => s
  end.

(** Sequencing of a fallible expression inside a [try] body. *)
Definition andThen {A S : Type} (o : Outcome A) (s : S) (k : A -> Exit S)
  : Exit S :=
  match o with
  | Returns a => k a
  | Throws e => Thrown e s
  end.

Section Stream.

(** [JSON.parse]: [None] when it throws a [SyntaxError]. *)
Variable JSON_parse : string -> option JSON.

(** Lines 124 to 145, the body of the inner [try], on one payload. *)
Definition tryBody (data : string) (cs : Call.t * Hook) : Exit (Call.t * Hook) :=
  let (c, st) := cs in
  match JSON_parse data with
  | None => Thrown SyntaxError cs
  | Some parsed =>
      andThen (get parsed "type") cs (fun type =>
      if strictEquals type "token" then
        andThen (get parsed "content") cs (fun fragment =>
        andThen (toString fragment) cs (fun text =>
        let fullContent := Call.fullContent c ++ text in
        Normal (setFullContent fullContent c,
                setMessages
                  (mapAt (Call.assistantId c) (withContent fullContent)) st)))
      else if strictEquals type "sources" then
        andThen (get parsed "sources") cs (fun v =>
        Normal (setSources v c, st))
      else if strictEquals type "conversation_id" then
        andThen (get parsed "conversation_id") cs (fun v =>
        let c := setNewConvId v c in
        if falsy (Call.conversationId c)
        then Normal (c, onConversationCreated v (setConversationId v st))
        else Normal (c, st))
      else if strictEquals type "error" then
        andThen (get parsed "message") cs (fun v =>
        match v with
        | None => Thrown (Error "") cs
        | Some _ =>
            andThen (toString v) cs (fun text => Thrown (Error text) cs)
        end)
      else Normal cs)
  end.

(** Lines 119 to 149: one line of a chunk. *)
Definition processLine (line : string) (cs : Call.t * Hook) : Call.t * Hook :=
  if startsWith "data: " line then
    let data := trim (slice 6 line) in
    if String.eqb data "[DONE]" then cs
    else ignore (tryBody data cs)
  else cs.

(** Lines 118 to 150: the [for] loop over the lines. *)
Definition processLines (lines : list string) (cs : Call.t * Hook)
  : Call.t * Hook :=
  fold_left (fun cs line => processLine line cs) lines cs.

(** Lines 115 to 150: one turn of the read loop on a chunk of text. *)
Definition readChunk (chunk : string) (cs : Call.t * Hook) : Call.t * Hook :=
  processLines (split chunk) cs.

(** Several turns of the read loop. *)
Definition readChunks (chunks : list string) (cs : Call.t * Hook)
  : Call.t * Hook :=
  fold_left (fun cs chunk => readChunk chunk cs) chunks cs.

(** Lines 153 to 163: after the loop. *)
Definition finalize (c : Call.t) (st : Hook) : Hook :=
  invalidateQueries
    (setMessages
       (mapAt (Call.assistantId c)
          (fun m =>
             withIsStreaming false
               (withSources (Call.sources c)
                  (withContent (Call.fullContent c) m)))) st).

(** Lines 164 to 189: the outer [catch]. *)
Definition catch (error : Exn) (c : Call.t) (st : Hook) : Hook :=
  match error with
  | AbortError =>
      setMessages (mapAt (Call.assistantId c) (withIsStreaming false)) st
  | _ =>
      setMessages
        (mapAt (Call.assistantId c)
           (fun m => withIsStreaming false (withContent failureText m)))
        (toast_error toastText st)
  end.

(** Lines 190 to 193. *)
Definition finally (st : Hook) : Hook := setRef None (setIsLoading false st).

(** A promise tied to the signal of [controller] rejects with an
    [AbortError] once that controller was aborted, whatever the network had
    for it. *)
Definition await (st : Hook) (c : Call.t) (net : Settled) : Settled :=
  if existsb (Nat.eqb (Call.controller c)) (aborted st)
  then Rejected AbortError
  else net.

Definition statusText (status : nat) : string :=
  NilEmpty.string_of_uint (Nat.to_uint status).

(** The call from one [await] to the next (lines 99 to 193), given what the
    awaited promise would settle with.  [None]: the call has ended. *)
Definition resume (net : Settled) (c : Call.t) (st : Hook)
  : Hook * option Call.t :=
  match await st c net with
  | Response ok status body =>
      if negb ok
      then (finally (catch (Error ("HTTP error! status: " ++ statusText status))
                       c st), None)
      else if negb body
      then (finally (catch (Error "No response body") c st), None)
      else (st, Some c)
  | Chunk text =>
      let (c', st') := readChunk text (c, st) in (st', Some c')
  | Done => (finally (finalize c st), None)
  | Rejected e => (finally (catch e c st), None)
  end.

(** A whole exchange: the successive settlements, until the call ends. *)
Fixpoint run (nets : list Settled) (c : Call.t) (st : Hook)
  : Hook * option Call.t :=
  match nets with
  | [] => (st, Some c)
  | net :: rest =>
      match resume net c st with
      | (st', Some c') => run rest c' st'
      | (st', None) => (st', None)
      end
  end.

End Stream.

(** [stopStreaming]. *)
Definition stopStreaming (st : Hook) : Hook := abortCurrent st.

(** [resetChat]. *)
Definition resetChat (st : Hook) : Hook :=
  setConversationId undefined (setMessages (fun _ => []) (stopStreaming st)).

(** [roles.lastIndexOf(r)], [None] for -1. *)
Fixpoint lastIndexOf (r : Role) (roles : list Role) : option nat :=
  match roles with
  | [] => None
  | x :: rest =>
      match lastIndexOf r rest with
      | Some i => Some (S i)
      | None => if Role_eqb x r then Some 0 else None
      end
  end.

(** The updater of lines 219 to 223. *)
Definition dropLastAssistant (prev : list Message) : list Message :=
  match lastIndexOf assistant (map role prev) with
  | None => prev
  | Some lastAssistantIdx => firstn lastAssistantIdx prev
  end.

(** [regenerateLastResponse]; it calls the [sendMessage] of its own render. *)
Definition regenerateLastResponse (seen : Seen.t) (fresh : Fresh.t) (st : Hook)
  : Hook * option Call.t :=
  match find (fun m => Role_eqb (role m) user) (rev (Seen.messages seen)) with
  | None => (st, None)
  | Some lastUserMessage =>
      sendMessage seen fresh (content lastUserMessage)
        (setMessages dropLastAssistant st)
  end.

(** ** The stream as the specification describes it

    The specification splits the read loop into a Frame Decoder, which turns
    a line into a typed event, and a fold of the events into the transcript.
    [decode] and [fold] follow that description; [processLine_decode] below
    shows the loop of the source to be their composition. *)

Inductive Event : Type :=
| Token (text : string)
| Sources (v : Value)
| ConversationId (v : Value)
| ErrorEvent (message : Value)
| Skipped.

Section Decoder.

Variable JSON_parse : string -> option JSON.

(** The event of one payload. *)
Definition decodePayload (data : string) : Event :=
  match JSON_parse data with
  | None => Skipped
  | Some parsed =>
      match get parsed "type" with
      | Throws _ => Skipped
      | Returns type =>
          if strictEquals type "token" then
            match get parsed "content" with
            | Returns fragment =>
                match toString fragment with
                | Returns text => Token text
                | Throws _ => Skipped
                end
            | Throws _ => Skipped
            end
          else if strictEquals type "sources" then
            match get parsed "sources" with
            | Returns v => Sources v
            | Throws _ => Skipped
            end
          else if strictEquals type "conversation_id" then
            match get parsed "conversation_id" with
            | Returns v => ConversationId v
            | Throws _ => Skipped
            end
          else if strictEquals type "error" then
            match get parsed "message" with
            | Returns v => ErrorEvent v
            | Throws _ => Skipped
            end
          else Skipped
      end
  end.

(** The event of one line: lines without the framing marker, the
    termination sentinel and malformed records yield none. *)
Definition decode (line : string) : Event :=
  if startsWith "data: " line then
    let data := trim (slice 6 line) in
    if String.eqb data "[DONE]" then Skipped else decodePayload data
  else Skipped.

(** A record whose payload [JSON.parse] rejects. *)
Definition malformed (line : string) : Prop :=
  startsWith "data: " line = true
  /\ JSON_parse (trim (slice 6 line)) = None.

(** The fragments of the token events of some lines, in order. *)
Fixpoint fragments (lines : list string) : list string :=
  match lines with
  | [] => []
  | line :: rest =>
      match decode line with
      | Token text => text :: fragments rest
      | _ => fragments rest
      end
  end.

(** The citation list staged after some lines: the payload of the last
    sources event, or [before] when there was none. *)
Fixpoint staged (before : Value) (lines : list string) : Value :=
  match lines with
  | [] => before
  | line :: rest =>
      match decode line with
      | Sources v => staged v rest
      | _ => staged before rest
      end
  end.

End Decoder.

(** What the read loop of the source does with an event. *)
Definition fold (e : Event) (cs : Call.t * Hook) : Call.t * Hook :=
  let (c, st) := cs in
  match e with
  | Token text =>
      let fullContent := Call.fullContent c ++ text in
      (setFullContent fullContent c,
       setMessages (mapAt (Call.assistantId c) (withContent fullContent)) st)
  | Sources v => (setSources v c, st)
  | ConversationId v =>
      if falsy (Call.conversationId c)
      then (setNewConvId v c, onConversationCreated v (setConversationId v st))
      else (setNewConvId v c, st)
  | ErrorEvent _ => cs
  | Skipped => cs
  end.

(** All the lines of some chunks, in order. *)
Definition linesOf (chunks : list string) : list string :=
  flat_map split chunks.

(** The assistant message of a transcript that ends with one. *)
Definition lastMessage (ms : list Message) : option Message :=
  last (map Some ms) None.

(** Occurrences of a user message with the given text. *)
Definition asked (text : string) (ms : list Message) : nat :=
  length (filter (fun m => Role_eqb (role m) user && String.eqb (content m) text) ms).

(** Messages shown as streaming. *)
Definition streaming (ms : list Message) : list Message :=
  filter (fun m => match isStreaming m with Some true => true | _ => false end) ms.

(** ** Vocabulary of the statements *)

(** The fields of the hook no event touches. *)
Definition sameSession (st st' : Hook) : Prop :=
  isLoading st' = isLoading st
  /\ abortControllerRef st' = abortControllerRef st
  /\ controllers st' = controllers st
  /\ aborted st' = aborted st
  /\ requests st' = requests st
  /\ toasts st' = toasts st
  /\ invalidated st' = invalidated st.

(** The locals of the call no event touches. *)
Definition sameCall (c c' : Call.t) : Prop :=
  Call.assistantId c' = Call.assistantId c
  /\ Call.controller c' = Call.controller c
  /\ Call.conversationId c' = Call.conversationId c.

(** The two messages [sendMessage] creates. *)
Definition userMessageOf (fresh : Fresh.t) (text : string) : Message :=
  {| id := Fresh.userId fresh; role := user; content := trim text;
     sources := undefined; timestamp := Fresh.userTime fresh;
     isStreaming := None |}.

Definition placeholderOf (fresh : Fresh.t) : Message :=
  {| id := Fresh.assistantId fresh; role := assistant; content := "";
     sources := undefined; timestamp := Fresh.assistantTime fresh;
     isStreaming := Some true |}.

(** No message carries the identifier [i]. *)
Definition unused (i : string) (ms : list Message) : Prop :=
  Forall (fun m => id m <> i) ms.

(** [c] is the call whose controller the hook holds, not yet aborted. *)
Definition live (c : Call.t) (st : Hook) : Prop :=
  existsb (Nat.eqb (Call.controller c)) (aborted st) = false.

(** ** Streams and states used in the worked examples *)

Module Example.

Import Reader.

Definition fresh1 : Fresh.t :=
  {| Fresh.userId := "u1"; Fresh.userTime := 1000;
     Fresh.assistantId := "a1"; Fresh.assistantTime := 1001;
     Fresh.access_token := Some "secret" |}.

Definition fresh2 : Fresh.t :=
  {| Fresh.userId := "u2"; Fresh.userTime := 2000;
     Fresh.assistantId := "a2"; Fresh.assistantTime := 2001;
     Fresh.access_token := Some "secret" |}.

(** A new hook without a conversation identifier. *)
Definition start : Hook := useChat undefined.

(** A first exchange on a new hook, just submitted and still streaming. *)
Definition asking : Hook * option Call.t :=
  sendMessage (render start) fresh1 " Q1 " start.

(** The call [asking] starts. *)
Definition call1 : Call.t :=
  {| Call.assistantId := "a1"; Call.controller := 0;
     Call.conversationId := undefined; Call.fullContent := "";
     Call.sources := Some (JArr []); Call.newConvId := undefined |}.

(** [nets] delivered to the exchange [asking] starts. *)
Definition exchange (nets : list Settled) : Hook * option Call.t :=
  match asking with
  | (st, Some c) => run parse nets c st
  | (st, None) => (st, None)
  end.

(** The transcript [user:Q1, assistant:A1], the exchange completed. *)
Definition answered : Hook :=
  fst (exchange [Response true 200 true;
                 Chunk (q "data: {'type':'token','content':'A1'}

");
                 Chunk (q "data: [DONE]

");
                 Done]).

Definition token_par : string := q "data: {'type':'token','content':'par'}".
Definition token_tial : string := q "data: {'type':'token','content':'tial'}".
Definition error_X : string := q "data: {'type':'error','message':'X'}".
Definition not_json : string := "data: not-json".
Definition conversation_A : string :=
  q "data: {'type':'conversation_id','conversation_id':'A'}".
Definition conversation_B : string :=
  q "data: {'type':'conversation_id','conversation_id':'B'}".
Definition sources_2 : string :=
  q "data: {'type':'sources','sources':[{'document_id':'d1','filename':'a.pdf','score':1,'excerpt':'x'},{'document_id':'d2','filename':'b.pdf','page_number':3,'score':0,'excerpt':'y'}]}".

Definition token_Hel : string := q "data: {'type':'token','content':'Hel'}".
Definition token_lo : string := q "data: {'type':'token','content':'lo'}".

Definition LF : string := String (ascii_of_N 10) EmptyString.

(** Lines sent as one chunk, each ended by a line feed. *)
Definition chunkOf (lines : list string) : string :=
  String.concat EmptyString (map (fun l => l ++ LF) lines).

(** The bytes of two token records, and the same bytes cut in the middle of
    the second record. *)
Definition twoTokens : string := chunkOf [token_Hel; token_lo].
Definition firstPart : string := substring 0 60 twoTokens.
Definition secondPart : string := slice 60 twoTokens.

(** The first exchange after it has read some chunks. *)
Definition reading (chunks : list string) : Call.t * Hook :=
  readChunks parse chunks (call1, fst asking).

(** The content of the assistant message that ends a transcript. *)
Definition answer (r : Hook * option Call.t) : option string :=
  option_map content (lastMessage (messages (fst r))).

End Example.

(** ** Claims of the specification the source does not meet *)

(** A submission made while an exchange streams cancels it first: the
    controller the hook held is aborted, the only message left streaming is
    the new placeholder, and the new exchange proceeds. *)
Definition cancelsThenStarts (fresh : Fresh.t) (text : string) (st : Hook)
  : Prop :=
  exists st1 c previous,
    sendMessage (render st) fresh text st = (st1, Some c)
    /\ abortControllerRef st = Some previous
    /\ In previous (aborted st1)
    /\ streaming (messages st1) = [placeholderOf fresh].

(** ** The hook together with the calls in flight

    A [sendMessage] call that has passed its guard stays suspended at an
    [await] until the promise settles.  Between two awaits the hook runs to
    completion, so what a session does is a sequence of actions: the caller
    invokes one of the four callbacks of the render of the current state, or
    the promise one of the suspended calls awaits settles. *)

Record System : Type := {
  hook : Hook;
  calls : list Call.t;
}.

Inductive Action : Type :=
| Submit (fresh : Fresh.t) (text : string)
| Stop
| Reset
| Regenerate (fresh : Fresh.t)
| Settle (n : nat) (net : Settled).

(** The system after a callback returned [r]: a call that passed the guard
    joins the suspended ones. *)
Definition opened (r : Hook * option Call.t) (cs : list Call.t) : System :=
  {| hook := fst r;
     calls := match snd r with
              | Some c => (cs ++ [c])%list
              | None => cs
              end |}.

(** The system after the [n]-th suspended call ran to [r]: it is suspended
    again, or gone. *)
Definition resumed (n : nat) (r : Hook * option Call.t) (cs : list Call.t)
  : System :=
  {| hook := fst r;
     calls := (firstn n cs
               ++ match snd r with
                  | Some c => [c]
                  | None => []
                  end
               ++ skipn (S n) cs)%list |}.

Section Session.

Variable JSON_parse : string -> option JSON.

Definition act (a : Action) (s : System) : System :=
  match a with
  | Submit fresh text =>
      opened (sendMessage (render (hook s)) fresh text (hook s)) (calls s)
  | Stop => {| hook := stopStreaming (hook s); calls := calls s |}
  | Reset => {| hook := resetChat (hook s); calls := calls s |}
  | Regenerate fresh =>
      opened (regenerateLastResponse (render (hook s)) fresh (hook s)) (calls s)
  | Settle n net =>
      match nth_error (calls s) n with
      | Some c => resumed n (resume JSON_parse net c (hook s)) (calls s)
      | None => s
      end
  end.

Definition play (actions : list Action) (s : System) : System :=
  fold_left (fun s a => act a s) actions s.

(** The identifier drawn for a placeholder is carried by no message of the
    transcript and differs from the one drawn for the user message. *)
Definition freshFor (a : Action) (s : System) : Prop :=
  match a with
  | Submit fresh _ | Regenerate fresh =>
      unused (Fresh.assistantId fresh) (messages (hook s))
      /\ Fresh.userId fresh <> Fresh.assistantId fresh
  | _ => True
  end.

Fixpoint freshIds (actions : list Action) (s : System) : Prop :=
  match actions with
  | [] => True
  | a :: rest => freshFor a s /\ freshIds rest (act a s)
  end.

End Session.

(** A new hook, no call in flight. *)
Definition boot (options_conversationId : Value) : System :=
  {| hook := useChat options_conversationId; calls := [] |}.

(** [isLoading] and the controller reference agree with the calls in
    flight, of which there is at most one. *)
Definition oneCall (s : System) : Prop :=
  match calls s with
  | [] => isLoading (hook s) = false /\ abortControllerRef (hook s) = None
  | [c] =>
      isLoading (hook s) = true
      /\ abortControllerRef (hook s) = Some (Call.controller c)
  | _ => False
  end.

(** The identifier and the streaming flag of each message. *)
Definition flags (ms : list Message) : list (string * option bool) :=
  map (fun m => (id m, isStreaming m)) ms.

Definition isTrue (b : option bool) : bool :=
  match b with
  | Some true => true
  | _ => false
  end.

(** Only the placeholder of the call in flight streams, and no other
    message carries its identifier. *)
Definition onePlaceholder (s : System) : Prop :=
  match calls s with
  | [] => Forall (fun p => isTrue (snd p) = false) (flags (messages (hook s)))
  | [c] =>
      Forall (fun p => isTrue (snd p) = true -> fst p = Call.assistantId c)
        (flags (messages (hook s)))
      /\ length (filter (fun p => String.eqb (fst p) (Call.assistantId c))
                   (flags (messages (hook s)))) <= 1
  | _ => True
  end.

(** The settlements that end an exchange as a failure: a rejection other
    than an abort, a response that is not ok, a response without body. *)
Definition failing (net : Settled) : bool :=
  match net with
  | Rejected AbortError => false
  | Rejected _ => true
  | Response ok _ body => negb ok || negb body
  | _ => false
  end.

(** Lines the read loop passes over: no framing marker, the sentinel, a
    payload that does not parse, that is no object, or whose [type] is none
    of the four the loop knows. *)
Definition passedOver (JSON_parse : string -> option JSON) (line : string)
  : Prop :=
  startsWith "data: " line = false
  \/ trim (slice 6 line) = "[DONE]"
  \/ JSON_parse (trim (slice 6 line)) = None
  \/ (exists v, JSON_parse (trim (slice 6 line)) = Some v
                /\ forall members, v <> JObj members)
  \/ (exists members,
        JSON_parse (trim (slice 6 line)) = Some (JObj members)
        /\ strictEquals (lookup "type" members) "token" = false
        /\ strictEquals (lookup "type" members) "sources" = false
        /\ strictEquals (lookup "type" members) "conversation_id" = false
        /\ strictEquals (lookup "type" members) "error" = false).

Definition CR : string := String (ascii_of_N 13) EmptyString.

Definition LF : string := String (ascii_of_N 10) EmptyString.

(** ** The input box of the chat window (components/Chat/ChatWindow.tsx)

    [ChatInput] keeps the text typed so far; the window hands it
    [sendMessage] as [onSend] and the hook's [isLoading].  The height of the
    text area, which the handlers also reset, is left out. *)

Module ChatInput.

(** [handleSend]: the new text of the box and what [onSend] returned, if it
    was called. *)
Definition handleSend {R : Type} (input : string) (isLoading : bool)
  (onSend : string -> R) : string * option R :=
  if String.eqb (trim input) "" || isLoading then (input, None)
  else (""%string, Some (onSend input)).

(** [handleKeyDown]: Enter without Shift sends. *)
Definition handleKeyDown {R : Type} (key : string) (shiftKey : bool)
  (input : string) (isLoading : bool) (onSend : string -> R)
  : string * option R :=
  if String.eqb key "Enter" && negb shiftKey
  then handleSend input isLoading onSend
  else (input, None).

End ChatInput.

(** A key pressed in the input box of the window that shows state [st]. *)
Definition keyDown (key : string) (shiftKey : bool) (input : string)
  (fresh : Fresh.t) (st : Hook) : string * option (Hook * option Call.t) :=
  ChatInput.handleKeyDown key shiftKey input (isLoading st)
    (fun text => sendMessage (render st) fresh text st).

(** ** The document viewer (components/Chat/PDFViewer.tsx)

    Page numbers and the rotation are whole numbers. *)

Module PDFViewer.

Definition goToPrevPage (p : Z) : Z := Z.max 1 (p - 1).

Definition goToNextPage (numPages p : Z) : Z := Z.min numPages (p + 1).

(** [(r + 90) % 360]; the remainder has the sign of the dividend. *)
Definition rotate (r : Z) : Z := Z.rem (r + 90) 360.

Inductive Click : Type := Prev | Next.

Definition click (numPages : Z) (p : Z) (c : Click) : Z :=
  match c with
  | Prev => goToPrevPage p
  | Next => goToNextPage numPages p
  end.

(** [s.split(sep)] for a separator of one character. *)
Fixpoint splitOn (sep : ascii) (s : string) : list string :=
  match s with
  | EmptyString => [EmptyString]
  | String a r =>
      if Ascii.eqb a sep then EmptyString :: splitOn sep r
      else
        match splitOn sep r with
        | h :: t => String a h :: t
        | [] => [String a EmptyString]
        end
  end.

Definition slash : ascii := ascii_of_N 47.

(** [url.split(slash).pop() || document.pdf]. *)
Definition filename (url : string) : string :=
  let name := last (splitOn slash url) EmptyString in
  if String.eqb name "" then "document.pdf"%string else name.

(** [has a s]: the character [a] occurs in [s]. *)
Fixpoint has (a : ascii) (s : string) : bool :=
  match s with
  | EmptyString => false
  | String b r => Ascii.eqb b a || has a r
  end.

End PDFViewer.

(** [ms'] has the messages of [ms], in the same order, each with the
    identifier, role and timestamp it had, and those whose identifier is not
    [i] entirely as they were. *)
Definition touchesOnly (i : string) (ms ms' : list Message) : Prop :=
  Forall2
    (fun m m' =>
       id m' = id m /\ role m' = role m /\ timestamp m' = timestamp m
       /\ (id m <> i -> m' = m))
    ms ms'.

(** ** A session used in the worked examples *)

Module Scenario.

Import Example.
Import Reader.

(** A conversation identifier the caller passed to the hook. *)
Definition known : Value := Some (JStr "c-1").

(** A question, one token, a stop, then a regeneration that completes. *)
Definition session : list Action :=
  [ Submit fresh1 " Q1 ";
    Settle 0 (Response true 200 true);
    Settle 0 (Chunk (chunkOf [token_par]));
    Stop;
    Settle 0 (Chunk (chunkOf [token_tial]));
    Regenerate fresh2;
    Settle 0 (Response true 200 true);
    Settle 0 (Chunk twoTokens);
    Settle 0 Done ].

(** The first call of a hook that was given [known]. *)
Definition knownAsking : Hook :=
  fst (sendMessage (render (useChat known)) fresh1 " Q1 " (useChat known)).

Definition knownCall : Call.t :=
  {| Call.assistantId := "a1"; Call.controller := 0;
     Call.conversationId := known; Call.fullContent := "";
     Call.sources := Some (JArr []); Call.newConvId := undefined |}.

Definition sentinel : string := "data: [DONE]".

Definition url : string := "https://docs.example.org/files/guide.pdf".

End Scenario.

(** ** The read loop is the decoder followed by the fold *)

Section Properties.

Local Open Scope list_scope.

Variable JSON_parse : string -> option JSON.

Lemma tryBody_decodePayload (data : string) (cs : Call.t * Hook) :
  ignore (tryBody JSON_parse data cs) = fold (decodePayload JSON_parse data) cs.
Proof.
  destruct cs as [c st]. unfold tryBody, decodePayload.
  destruct (JSON_parse data) as [parsed|]; [|reflexivity].
  destruct (get parsed "type") as [type|e]; [|reflexivity]. cbn [andThen].
  destruct (strictEquals type "token").
  { destruct (get parsed "content") as [fragment|e]; [|reflexivity].
    cbn [andThen]. destruct (toString fragment); reflexivity. }
  destruct (strictEquals type "sources").
  { destruct (get parsed "sources"); reflexivity. }
  destruct (strictEquals type "conversation_id").
  { destruct (get parsed "conversation_id") as [v|e]; [|reflexivity].
    cbn. destruct (falsy (Call.conversationId c)); reflexivity. }
  destruct (strictEquals type "error"); [|reflexivity].
  destruct (get parsed "message") as [[v|]|e]; try reflexivity.
  cbn [andThen]. destruct (toString (Some v)); reflexivity.
Qed.

Lemma processLine_decode (line : string) (cs : Call.t * Hook) :
  processLine JSON_parse line cs = fold (decode JSON_parse line) cs.
Proof.
  unfold processLine, decode.
  destruct (startsWith "data: " line); [|destruct cs; reflexivity].
  cbv zeta. destruct (String.eqb _ "[DONE]"); [destruct cs; reflexivity|].
  apply tryBody_decodePayload.
Qed.

Lemma processLines_decode (lines : list string) (cs : Call.t * Hook) :
  processLines JSON_parse lines cs
  = fold_left (fun cs line => fold (decode JSON_parse line) cs) lines cs.
Proof.
  unfold processLines. revert cs.
  induction lines as [|line rest IH]; intro cs; cbn; [reflexivity|].
  rewrite processLine_decode. apply IH.
Qed.

Lemma processLines_app (ls1 ls2 : list string) (cs : Call.t * Hook) :
  processLines JSON_parse (ls1 ++ ls2) cs
  = processLines JSON_parse ls2 (processLines JSON_parse ls1 cs).
Proof. unfold processLines. apply fold_left_app. Qed.

(** Reading chunks is reading their lines, whatever the chunks were. *)
Lemma readChunks_linesOf (chunks : list string) (cs : Call.t * Hook) :
  readChunks JSON_parse chunks cs = processLines JSON_parse (linesOf chunks) cs.
Proof.
  unfold readChunks, linesOf. revert cs.
  induction chunks as [|chunk rest IH]; intro cs; cbn [fold_left flat_map];
    [reflexivity|].
  rewrite processLines_app, IH. reflexivity.
Qed.

(** The records the decoder reads as token events, in terms of the source:
    the framing marker, a payload other than the sentinel that parses to an
    object whose [type] is the string token; the fragment is [ToString] of
    its [content]. *)
Lemma decode_token_record (line : string) (members : list (string * JSON))
  (text : string) :
  startsWith "data: " line = true ->
  trim (slice 6 line) <> "[DONE]"%string ->
  JSON_parse (trim (slice 6 line)) = Some (JObj members) ->
  lookup "type" members = Some (JStr "token") ->
  toString (lookup "content" members) = Returns text ->
  decode JSON_parse line = Token text.
Proof.
  intros Hmark Hdone Hparse Htype Htext. unfold decode. rewrite Hmark.
  cbv zeta. apply String.eqb_neq in Hdone. rewrite Hdone.
  unfold decodePayload. rewrite Hparse. cbn [get]. rewrite Htype.
  cbn [strictEquals]. rewrite String.eqb_refl, Htext. reflexivity.
Qed.

(** A record [JSON.parse] rejects decodes to no event. *)
Lemma malformed_Skipped (line : string) :
  malformed JSON_parse line -> decode JSON_parse line = Skipped.
Proof.
  intros [Hmark Hparse]. unfold decode. rewrite Hmark. cbv zeta.
  destruct (String.eqb _ "[DONE]"); [reflexivity|].
  unfold decodePayload. rewrite Hparse. reflexivity.
Qed.

(** ** What a line can change *)

Lemma fold_frame (e : Event) (c : Call.t) (st : Hook) :
  sameCall c (fst (fold e (c, st))) /\ sameSession st (snd (fold e (c, st))).
Proof.
  unfold sameCall, sameSession.
  destruct e; cbn; try destruct (falsy (Call.conversationId c)); cbn; tauto.
Qed.

Lemma processLines_frame (lines : list string) (c : Call.t) (st : Hook) :
  sameCall c (fst (processLines JSON_parse lines (c, st)))
  /\ sameSession st (snd (processLines JSON_parse lines (c, st))).
Proof.
  rewrite processLines_decode. revert c st.
  induction lines as [|line rest IH]; intros c st; cbn [fold_left].
  - unfold sameCall, sameSession; cbn; tauto.
  - destruct (fold (decode JSON_parse line) (c, st)) as [c1 st1] eqn:E.
    pose proof (fold_frame (decode JSON_parse line) c st) as [Hc Hs].
    rewrite E in Hc, Hs. cbn [fst snd] in Hc, Hs.
    destruct (IH c1 st1) as [Hc' Hs'].
    unfold sameCall, sameSession in *.
    repeat match goal with H : _ /\ _ |- _ => destruct H end.
    repeat split; congruence.
Qed.

(** ** Strings and transcripts *)

Lemma append_assoc (a b c : string) : ((a ++ b) ++ c = a ++ (b ++ c))%string.
Proof. induction a as [|x a IH]; cbn; [reflexivity|]. now rewrite IH. Qed.

Lemma append_empty_r (a : string) : (a ++ "")%string = a.
Proof. induction a as [|x a IH]; cbn; [reflexivity|]. now rewrite IH. Qed.

Lemma mapAt_unused (i : string) (f : Message -> Message) (ms : list Message) :
  unused i ms -> mapAt i f ms = ms.
Proof.
  unfold unused, mapAt. induction 1 as [|m ms Hm _ IH]; cbn; [reflexivity|].
  rewrite IH. apply String.eqb_neq in Hm. now rewrite Hm.
Qed.

Lemma mapAt_app (i : string) (f : Message -> Message) (l1 l2 : list Message) :
  mapAt i f (l1 ++ l2) = mapAt i f l1 ++ mapAt i f l2.
Proof. apply map_app. Qed.

Lemma mapAt_withContent_twice (i a b : string) (ms : list Message) :
  mapAt i (withContent b) (mapAt i (withContent a) ms)
  = mapAt i (withContent b) ms.
Proof.
  unfold mapAt. rewrite map_map. apply map_ext. intro m.
  destruct (String.eqb (id m) i) eqn:E; cbn; rewrite E; reflexivity.
Qed.

(** ** The content and the citations an exchange has accumulated *)

Lemma fold_accumulates (e : Event) (c : Call.t) (st : Hook) (base : list Message) :
  messages st
  = mapAt (Call.assistantId c) (withContent (Call.fullContent c)) base ->
  let c' := fst (fold e (c, st)) in
  let st' := snd (fold e (c, st)) in
  messages st'
  = mapAt (Call.assistantId c') (withContent (Call.fullContent c')) base
  /\ map sources (messages st') = map sources (messages st).
Proof.
  intro H. destruct e; cbn; try (split; [exact H|reflexivity]).
  - rewrite H, mapAt_withContent_twice. split; [reflexivity|].
    unfold mapAt. rewrite !map_map. apply map_ext. intro m.
    destruct (String.eqb (id m) (Call.assistantId c)); reflexivity.
  - destruct (falsy (Call.conversationId c)); cbn; split;
      solve [exact H | reflexivity].
Qed.

Lemma fold_fullContent (e : Event) (c : Call.t) (st : Hook) :
  Call.fullContent (fst (fold e (c, st)))
  = (Call.fullContent c
     ++ match e with Token text => text | _ => "" end)%string.
Proof.
  destruct e; cbn; try destruct (falsy (Call.conversationId c)); cbn;
    now rewrite ?append_empty_r.
Qed.

Lemma fold_sources (e : Event) (c : Call.t) (st : Hook) :
  Call.sources (fst (fold e (c, st)))
  = match e with Sources v => v | _ => Call.sources c end.
Proof.
  destruct e; cbn; try destruct (falsy (Call.conversationId c)); reflexivity.
Qed.

Lemma processLines_accumulates (lines : list string) (c : Call.t) (st : Hook)
  (base : list Message) :
  messages st
  = mapAt (Call.assistantId c) (withContent (Call.fullContent c)) base ->
  let c' := fst (processLines JSON_parse lines (c, st)) in
  let st' := snd (processLines JSON_parse lines (c, st)) in
  messages st'
  = mapAt (Call.assistantId c') (withContent (Call.fullContent c')) base
  /\ map sources (messages st') = map sources (messages st)
  /\ Call.fullContent c'
     = (Call.fullContent c
        ++ String.concat "" (fragments JSON_parse lines))%string
  /\ Call.sources c' = staged JSON_parse (Call.sources c) lines.
Proof.
  rewrite processLines_decode. revert c st.
  induction lines as [|line rest IH]; intros c st H; cbn [fold_left].
  - cbn. rewrite append_empty_r. auto.
  - destruct (fold (decode JSON_parse line) (c, st)) as [c1 st1] eqn:E.
    pose proof (fold_accumulates (decode JSON_parse line) c st base H) as [H1 H2].
    pose proof (fold_fullContent (decode JSON_parse line) c st) as H3.
    pose proof (fold_sources (decode JSON_parse line) c st) as H4.
    rewrite E in H1, H2, H3, H4. cbn [fst snd] in H1, H2, H3, H4.
    destruct (IH c1 st1 H1) as (I1 & I2 & I3 & I4).
    split; [exact I1|]. split; [congruence|]. split.
    + rewrite I3, H3. cbn [fragments].
      destruct (decode JSON_parse line); rewrite ?append_empty_r; try reflexivity.
      rewrite append_assoc. f_equal.
      destruct (fragments JSON_parse rest); cbn; now rewrite ?append_empty_r.
    + rewrite I4, H4. cbn [staged].
      destruct (decode JSON_parse line); reflexivity.
Qed.

(** ** One exchange *)

Lemma sendMessage_guard (seen : Seen.t) (fresh : Fresh.t) (text : string)
  (st : Hook) :
  trim text = ""%string \/ Seen.isLoading seen = true ->
  sendMessage seen fresh text st = (st, None).
Proof.
  intros [H|H]; unfold sendMessage; rewrite H; cbn; [reflexivity|].
  now rewrite orb_true_r.
Qed.

Lemma sendMessage_starts (seen : Seen.t) (fresh : Fresh.t) (text : string)
  (st st1 : Hook) (c : Call.t) :
  sendMessage seen fresh text st = (st1, Some c) ->
  trim text <> ""%string
  /\ Seen.isLoading seen = false
  /\ messages st1 = messages st ++ [userMessageOf fresh text; placeholderOf fresh]
  /\ c = {| Call.assistantId := Fresh.assistantId fresh;
            Call.controller := controllers st;
            Call.conversationId := Seen.conversationId seen;
            Call.fullContent := "";
            Call.sources := Some (JArr []);
            Call.newConvId := undefined |}
  /\ isLoading st1 = true
  /\ conversationId st1 = conversationId st
  /\ abortControllerRef st1 = Some (controllers st)
  /\ aborted st1 = aborted (abortCurrent st)
  /\ toasts st1 = toasts st
  /\ created st1 = created st
  /\ invalidated st1 = invalidated st.
Proof.
  unfold sendMessage.
  destruct (String.eqb (trim text) "") eqn:Et; [discriminate|].
  destruct (Seen.isLoading seen) eqn:El; [discriminate|]. cbn [orb].
  intro H. injection H as <- <-.
  apply String.eqb_neq in Et.
  unfold abortCurrent. destruct (abortControllerRef st); cbn;
    rewrite <- app_assoc; repeat split; auto.
Qed.

Lemma in_flight (seen : Seen.t) (fresh : Fresh.t) (text : string)
  (st st1 : Hook) (c : Call.t) (chunks : list string)
  (c2 : Call.t) (st2 : Hook) :
  sendMessage seen fresh text st = (st1, Some c) ->
  unused (Fresh.assistantId fresh) (messages st) ->
  Fresh.userId fresh <> Fresh.assistantId fresh ->
  readChunks JSON_parse chunks (c, st1) = (c2, st2) ->
  messages st2
  = messages st ++ [userMessageOf fresh text;
                    withContent (Call.fullContent c2) (placeholderOf fresh)]
  /\ map sources (messages st2) = map sources (messages st1)
  /\ Call.fullContent c2
     = String.concat "" (fragments JSON_parse (linesOf chunks))
  /\ Call.sources c2 = staged JSON_parse (Some (JArr [])) (linesOf chunks)
  /\ Call.assistantId c2 = Fresh.assistantId fresh
  /\ Call.controller c2 = Call.controller c
  /\ sameSession st1 st2.
Proof.
  intros Hsend Hold Hids Hread.
  destruct (sendMessage_starts _ _ _ _ _ _ Hsend)
    as (_ & _ & Hms & Hc & _).
  rewrite readChunks_linesOf in Hread.
  assert (Hbase : messages st1
                  = mapAt (Call.assistantId c) (withContent (Call.fullContent c))
                      (messages st ++ [userMessageOf fresh text; placeholderOf fresh])).
  { rewrite Hms, Hc. cbn [Call.assistantId Call.fullContent].
    rewrite mapAt_app, (mapAt_unused _ _ _ Hold). f_equal.
    cbn. apply String.eqb_neq in Hids. rewrite Hids, String.eqb_refl.
    reflexivity. }
  pose proof (processLines_accumulates (linesOf chunks) c st1 _ Hbase) as H.
  pose proof (processLines_frame (linesOf chunks) c st1) as [Hcall Hsess].
  rewrite Hread in H, Hcall, Hsess. cbn [fst snd] in H, Hcall, Hsess.
  destruct H as (H1 & H2 & H3 & H4).
  destruct Hcall as (Ha & Hk & _).
  assert (Haid : Call.assistantId c2 = Fresh.assistantId fresh)
    by (rewrite Ha, Hc; reflexivity).
  repeat split; try assumption.
  - rewrite H1, Haid, mapAt_app, (mapAt_unused _ _ _ Hold). f_equal.
    cbn. apply String.eqb_neq in Hids. rewrite Hids, String.eqb_refl.
    reflexivity.
  - rewrite H3, Hc. reflexivity.
  - rewrite H4, Hc. reflexivity.
  - apply Hsess.
  - apply Hsess.
  - apply Hsess.
  - apply Hsess.
  - apply Hsess.
  - apply Hsess.
  - apply Hsess.
Qed.

(** ** Submission *)

(** C9. A submission whose text is empty after trimming appends nothing and
    changes nothing.  A submission of any other text, made while no exchange
    is streaming, appends one user message carrying the trimmed text and then
    one assistant placeholder with empty content and [isStreaming] true, in
    that order, and the exchange starts. *)
Theorem submit_appends_user_then_placeholder
  (seen : Seen.t) (fresh : Fresh.t) (text : string) (st : Hook) :
  (trim text = ""%string -> sendMessage seen fresh text st = (st, None))
  /\ (trim text <> ""%string -> Seen.isLoading seen = false ->
      exists st1 c,
        sendMessage seen fresh text st = (st1, Some c)
        /\ messages st1
           = messages st
             ++ [ {| id := Fresh.userId fresh; role := user;
                     content := trim text; sources := undefined;
                     timestamp := Fresh.userTime fresh;
                     isStreaming := None |};
                  {| id := Fresh.assistantId fresh; role := assistant;
                     content := ""; sources := undefined;
                     timestamp := Fresh.assistantTime fresh;
                     isStreaming := Some true |} ]).
Proof.
  split.
  - intro H. apply sendMessage_guard. now left.
  - intros Ht Hl.
    destruct (sendMessage seen fresh text st) as [st1 [c|]] eqn:E.
    + exists st1, c. split; [reflexivity|].
      now destruct (sendMessage_starts _ _ _ _ _ _ E) as (_ & _ & Hms & _).
    + exfalso. unfold sendMessage in E. apply String.eqb_neq in Ht.
      rewrite Ht, Hl in E. discriminate.
Qed.

(** C3, as the source has it. A submission made by a render in which an
    exchange is streaming ([isLoading] true) is a no-op: the stream in flight
    is not cancelled, its assistant message stays as it is, and no user
    message, placeholder or request is created. *)
Theorem submit_while_streaming_is_noop
  (seen : Seen.t) (fresh : Fresh.t) (text : string) (st : Hook) :
  Seen.isLoading seen = true ->
  sendMessage seen fresh text st = (st, None).
Proof. intro H. apply sendMessage_guard. now right. Qed.

(** What lines 48 to 53 do when the guard lets a call through: the
    controller the hook holds is aborted and replaced by a new one. *)
Lemma submit_aborts_registered_controller
  (seen : Seen.t) (fresh : Fresh.t) (text : string) (st st1 : Hook)
  (c : Call.t) (previous : Controller) :
  sendMessage seen fresh text st = (st1, Some c) ->
  abortControllerRef st = Some previous ->
  In previous (aborted st1)
  /\ abortControllerRef st1 = Some (Call.controller c).
Proof.
  intros H Hp.
  destruct (sendMessage_starts _ _ _ _ _ _ H)
    as (_ & _ & _ & Hc & _ & _ & Hr & Ha & _).
  rewrite Ha, Hr, Hc. unfold abortCurrent. rewrite Hp. cbn. auto.
Qed.

(** ** Regeneration *)

Lemma lastIndexOf_last (r : Role) (l1 l2 : list Role) :
  Forall (fun x => x <> r) l2 ->
  lastIndexOf r (l1 ++ r :: l2) = Some (length l1).
Proof.
  intro H.
  assert (Hnone : lastIndexOf r l2 = None).
  { induction H as [|x l2 Hx _ IH]; cbn; [reflexivity|]. rewrite IH.
    destruct x, r; cbn; congruence. }
  induction l1 as [|x l1 IH]; cbn.
  - rewrite Hnone. destruct r; reflexivity.
  - now rewrite IH.
Qed.

Lemma dropLastAssistant_last (pre post : list Message) (a : Message) :
  role a = assistant ->
  Forall (fun m => role m = user) post ->
  dropLastAssistant (pre ++ a :: post) = pre.
Proof.
  intros Ha Hpost. unfold dropLastAssistant.
  rewrite map_app. cbn [map]. rewrite Ha, lastIndexOf_last.
  - rewrite length_map, firstn_app, firstn_all, Nat.sub_diag. cbn.
    apply app_nil_r.
  - induction Hpost as [|m post Hm _ IH]; cbn; constructor; auto.
    rewrite Hm. discriminate.
Qed.

Lemma find_user (ms : list Message) (u : Message) :
  In u ms -> role u = user ->
  exists m, find (fun m => Role_eqb (role m) user) (rev ms) = Some m
            /\ role m = user.
Proof.
  intros Hin Hu.
  destruct (find (fun m => Role_eqb (role m) user) (rev ms)) as [m|] eqn:E.
  - exists m. split; [reflexivity|]. apply find_some in E as [_ E].
    destruct (role m); [reflexivity|discriminate].
  - apply find_none with (x := u) in E; [|now apply in_rev in Hin].
    rewrite Hu in E. discriminate.
Qed.

(** Regeneration on an idle transcript that ends with a user message and
    its answer: the answer is removed and the user message is kept, and the
    submission then appends a second user message with the same text. *)
Lemma regenerate_appends_user_again
  (fresh : Fresh.t) (st : Hook) (pre : list Message) (u a : Message) :
  isLoading st = false ->
  messages st = pre ++ [u; a] ->
  role u = user ->
  role a = assistant ->
  trim (content u) <> ""%string ->
  messages (fst (regenerateLastResponse (render st) fresh st))
  = pre ++ [u; userMessageOf fresh (content u); placeholderOf fresh].
Proof.
  intros Hl Hms Hu Ha Ht.
  unfold regenerateLastResponse. cbn [render Seen.messages].
  rewrite Hms, rev_app_distr. cbn [rev app find].
  rewrite Ha, Hu. cbn [Role_eqb].
  destruct (sendMessage (render st) fresh (content u)
              (setMessages dropLastAssistant st)) as [st1 [c|]] eqn:E.
  - destruct (sendMessage_starts _ _ _ _ _ _ E) as (_ & _ & H & _).
    cbn [fst]. rewrite H. cbn [setMessages messages]. rewrite Hms.
    replace (pre ++ [u; a]) with ((pre ++ [u]) ++ a :: [])
      by (rewrite <- app_assoc; reflexivity).
    rewrite dropLastAssistant_last by (auto; constructor).
    rewrite <- app_assoc. reflexivity.
  - exfalso. unfold sendMessage in E. apply String.eqb_neq in Ht.
    cbn [render Seen.isLoading] in E. rewrite Ht, Hl in E. discriminate.
Qed.

(** C6. Regeneration asked for while an exchange streams removes the most
    recent assistant message and what follows it and starts no exchange: the
    submission it makes returns at the guard.  The transcript then ends with
    the user message that was being answered, and, the removed placeholder
    having been the one streaming message, shows no streaming message. *)
Theorem regenerate_while_streaming_only_truncates
  (fresh : Fresh.t) (st : Hook) (pre post : list Message) (u a : Message) :
  isLoading st = true ->
  messages st = pre ++ [u; a] ++ post ->
  role u = user ->
  role a = assistant ->
  Forall (fun m => role m = user) post ->
  streaming (pre ++ [u]) = [] ->
  regenerateLastResponse (render st) fresh st
  = (setMessages (fun _ => pre ++ [u]) st, None)
  /\ lastMessage (pre ++ [u]) = Some u
  /\ streaming (messages (fst (regenerateLastResponse (render st) fresh st)))
     = []
  /\ requests (fst (regenerateLastResponse (render st) fresh st))
     = requests st.
Proof.
  intros Hl Hms Hu Ha Hpost Hs.
  assert (E : regenerateLastResponse (render st) fresh st
              = (setMessages (fun _ => pre ++ [u]) st, None)).
  { unfold regenerateLastResponse. cbn [render Seen.messages].
    destruct (find_user (messages st) u) as (m & -> & _); [|exact Hu|].
    { rewrite Hms. apply in_or_app. right. now left. }
    rewrite sendMessage_guard by (right; exact Hl).
    f_equal. unfold setMessages. rewrite Hms.
    replace (pre ++ [u; a] ++ post) with ((pre ++ [u]) ++ a :: post)
      by (rewrite <- app_assoc; reflexivity).
    now rewrite dropLastAssistant_last. }
  rewrite E. cbn [fst setMessages messages requests].
  repeat split; try assumption.
  unfold lastMessage. rewrite map_app. cbn. apply last_last.
Qed.

(** ** Citations *)

Lemma mapAt_sources (i : string) (f : Message -> Message) (ms : list Message) :
  (forall m, sources (f m) = sources m) ->
  map sources (mapAt i f ms) = map sources ms.
Proof.
  intro H. unfold mapAt. rewrite map_map. apply map_ext. intro m.
  destruct (String.eqb (id m) i); [apply H|reflexivity].
Qed.

Lemma fold_sources_untouched (e : Event) (c : Call.t) (st : Hook) :
  map sources (messages (snd (fold e (c, st)))) = map sources (messages st).
Proof.
  destruct e; cbn; try destruct (falsy (Call.conversationId c)); cbn;
    try reflexivity.
  all: apply mapAt_sources; intro m; reflexivity.
Qed.

Lemma processLines_sources_untouched (lines : list string) (c : Call.t)
  (st : Hook) :
  map sources (messages (snd (processLines JSON_parse lines (c, st))))
  = map sources (messages st).
Proof.
  rewrite processLines_decode. revert c st.
  induction lines as [|line rest IH]; intros c st; cbn [fold_left];
    [reflexivity|].
  pose proof (fold_sources_untouched (decode JSON_parse line) c st) as H.
  destruct (fold (decode JSON_parse line) (c, st)) as [c1 st1].
  rewrite IH. exact H.
Qed.

Lemma catch_sources_untouched (e : Exn) (c : Call.t) (st : Hook) :
  map sources (messages (catch e c st)) = map sources (messages st).
Proof. destruct e; cbn; apply mapAt_sources; intro m; reflexivity. Qed.

(** C8. From the submission on, whatever chunks have been read, no message
    of the transcript shows citations that it did not show before: the
    placeholder has none, and a sources event only stages its list in the
    call.  Whatever the next await settles with, the placeholder afterwards
    has either no citations or the whole staged list; the end of the stream
    commits the staged list, which is the payload of the last sources event
    decoded, or the empty list when there was none. *)
Theorem sources_absent_until_finalization
  (seen : Seen.t) (fresh : Fresh.t) (text : string) (st st1 : Hook)
  (c : Call.t) (chunks : list string) (c2 : Call.t) (st2 : Hook) :
  sendMessage seen fresh text st = (st1, Some c) ->
  unused (Fresh.assistantId fresh) (messages st) ->
  Fresh.userId fresh <> Fresh.assistantId fresh ->
  readChunks JSON_parse chunks (c, st1) = (c2, st2) ->
  map sources (messages st2)
  = map sources (messages st) ++ [undefined; undefined]
  /\ Call.sources c2 = staged JSON_parse (Some (JArr [])) (linesOf chunks)
  /\ (forall net : Settled,
        exists s : Value,
          (s = undefined \/ s = Call.sources c2)
          /\ map sources (messages (fst (resume JSON_parse net c2 st2)))
             = map sources (messages st) ++ [undefined; s])
  /\ (live c2 st2 ->
      map sources (messages (fst (resume JSON_parse Done c2 st2)))
      = map sources (messages st)
        ++ [undefined; staged JSON_parse (Some (JArr [])) (linesOf chunks)]).
Proof.
  intros Hsend Hold Hids Hread.
  destruct (in_flight _ _ _ _ _ _ _ _ _ Hsend Hold Hids Hread)
    as (Hms & _ & _ & Hstaged & Haid & _).
  assert (Hmid : map sources (messages st2)
                 = map sources (messages st) ++ [undefined; undefined]).
  { rewrite Hms, map_app. reflexivity. }
  assert (Hdone : map sources (messages (finally (finalize c2 st2)))
                  = map sources (messages st) ++ [undefined; Call.sources c2]).
  { cbn. rewrite Hms, Haid, mapAt_app, (mapAt_unused _ _ _ Hold), map_app.
    f_equal. cbn. apply String.eqb_neq in Hids.
    rewrite Hids, String.eqb_refl. reflexivity. }
  assert (Hcatch : forall e, map sources (messages (finally (catch e c2 st2)))
                             = map sources (messages st) ++ [undefined; undefined]).
  { intro e. rewrite <- Hmid. apply (catch_sources_untouched e c2 st2). }
  split; [exact Hmid|]. split; [exact Hstaged|]. split.
  - intro net. unfold resume.
    destruct (await st2 c2 net) as [ok status body|chunk| |e].
    + destruct ok, body; cbn [negb fst];
        (exists undefined; split; [now left|]); auto.
    + destruct (readChunk JSON_parse chunk (c2, st2)) as [c3 st3] eqn:E.
      exists undefined. split; [now left|]. cbn [fst]. rewrite <- Hmid.
      change st3 with (snd (c3, st3)). rewrite <- E.
      apply processLines_sources_untouched.
    + exists (Call.sources c2). split; [now right|]. exact Hdone.
    + exists undefined. split; [now left|]. apply Hcatch.
  - intro Hlive. unfold resume, await. unfold live in Hlive. rewrite Hlive.
    cbn [fst]. rewrite <- Hstaged. exact Hdone.
Qed.

(** ** Cancellation *)

(** C7. When [stopStreaming] is called in the middle of an exchange, after
    any chunks, the call ends at its next await whatever the network had for
    it: the assistant message keeps the content accumulated so far, gets
    [isStreaming] false and no citations; the messages before it, the
    conversation identifier and the list of error toasts are as they were
    before the stop. *)
Theorem stop_keeps_partial_answer
  (seen : Seen.t) (fresh : Fresh.t) (text : string) (st st1 : Hook)
  (c : Call.t) (chunks : list string) (c2 : Call.t) (st2 : Hook)
  (net : Settled) :
  sendMessage seen fresh text st = (st1, Some c) ->
  unused (Fresh.assistantId fresh) (messages st) ->
  Fresh.userId fresh <> Fresh.assistantId fresh ->
  readChunks JSON_parse chunks (c, st1) = (c2, st2) ->
  exists st3 : Hook,
    resume JSON_parse net c2 (stopStreaming st2) = (st3, None)
    /\ messages st2
       = messages st
         ++ [ userMessageOf fresh text;
              {| id := Fresh.assistantId fresh; role := assistant;
                 content := Call.fullContent c2; sources := undefined;
                 timestamp := Fresh.assistantTime fresh;
                 isStreaming := Some true |} ]
    /\ messages st3
       = messages st
         ++ [ userMessageOf fresh text;
              {| id := Fresh.assistantId fresh; role := assistant;
                 content := Call.fullContent c2; sources := undefined;
                 timestamp := Fresh.assistantTime fresh;
                 isStreaming := Some false |} ]
    /\ Call.fullContent c2
       = String.concat "" (fragments JSON_parse (linesOf chunks))
    /\ conversationId st3 = conversationId st2
    /\ toasts st3 = toasts st2
    /\ isLoading st3 = false
    /\ abortControllerRef st3 = None.
Proof.
  intros Hsend Hold Hids Hread.
  destruct (in_flight _ _ _ _ _ _ _ _ _ Hsend Hold Hids Hread)
    as (Hms & _ & Hfc & _ & Haid & Hk & Hsess).
  destruct (sendMessage_starts _ _ _ _ _ _ Hsend)
    as (_ & _ & _ & Hc & _ & _ & Hr & _).
  destruct Hsess as (_ & Href & _).
  assert (Hheld : abortControllerRef st2 = Some (Call.controller c2)).
  { rewrite Href, Hr, Hk, Hc. reflexivity. }
  exists (finally (catch AbortError c2 (stopStreaming st2))).
  split.
  { unfold resume, await, stopStreaming, abortCurrent. rewrite Hheld.
    cbn [aborted existsb]. rewrite Nat.eqb_refl. reflexivity. }
  unfold stopStreaming, abortCurrent. rewrite Hheld.
  cbn [finally catch setRef setIsLoading setMessages messages conversationId
       toasts isLoading abortControllerRef].
  split; [exact Hms|]. split; [|auto].
  rewrite Hms, Haid, mapAt_app, (mapAt_unused _ _ _ Hold).
  cbn. apply String.eqb_neq in Hids. rewrite Hids, String.eqb_refl.
  reflexivity.
Qed.

(** ** Malformed records and error events *)

Lemma malformed_line_is_noop (bad : string) (cs : Call.t * Hook) :
  malformed JSON_parse bad -> processLine JSON_parse bad cs = cs.
Proof.
  intro H. rewrite processLine_decode, (malformed_Skipped _ H).
  destruct cs; reflexivity.
Qed.

(** What the read loop does with a decoded error event: nothing.  The
    [Error] thrown at line 144 is caught by the [catch] of line 146. *)
Lemma error_event_is_noop (line : string) (v : Value) (cs : Call.t * Hook) :
  decode JSON_parse line = ErrorEvent v -> processLine JSON_parse line cs = cs.
Proof. intro H. rewrite processLine_decode, H. destruct cs; reflexivity. Qed.

(** A conversation event is tested against the identifier the render saw,
    not against the one an earlier event of the stream has set. *)
Lemma conversation_event_sets_again (line : string) (v : Value) (c : Call.t)
  (st : Hook) :
  decode JSON_parse line = ConversationId v ->
  falsy (Call.conversationId c) = true ->
  processLine JSON_parse line (c, st)
  = (setNewConvId v c, onConversationCreated v (setConversationId v st)).
Proof. intros H Hf. rewrite processLine_decode, H. cbn. now rewrite Hf. Qed.

(** C10. A record whose payload does not parse, between two token records
    of a chunk, is skipped: both fragments are appended to the content of the
    assistant message, and the call goes on with the rest of the chunk and
    awaits the next read. *)
Theorem malformed_record_is_skipped
  (c : Call.t) (st : Hook) (chunk first bad second f1 f2 : string)
  (rest : list string) :
  decode JSON_parse first = Token f1 ->
  malformed JSON_parse bad ->
  decode JSON_parse second = Token f2 ->
  split chunk = first :: bad :: second :: rest ->
  live c st ->
  let shown := (Call.fullContent c ++ f1 ++ f2)%string in
  processLines JSON_parse [first; bad; second] (c, st)
  = (setFullContent shown c,
     setMessages (mapAt (Call.assistantId c) (withContent shown)) st)
  /\ exists c' st',
       resume JSON_parse (Chunk chunk) c st = (st', Some c')
       /\ (c', st')
          = processLines JSON_parse rest
              (processLines JSON_parse [first; bad; second] (c, st)).
Proof.
  intros H1 Hbad H2 Hsplit Hlive shown.
  assert (E : processLines JSON_parse [first; bad; second] (c, st)
              = (setFullContent shown c,
                 setMessages (mapAt (Call.assistantId c) (withContent shown)) st)).
  { unfold processLines. cbn [fold_left].
    rewrite (processLine_decode first), H1.
    rewrite (malformed_line_is_noop bad _ Hbad).
    rewrite (processLine_decode second), H2. cbn.
    unfold shown. rewrite append_assoc. f_equal.
    unfold setMessages.
    cbn [messages isLoading conversationId abortControllerRef controllers
         aborted requests created toasts invalidated].
    now rewrite mapAt_withContent_twice. }
  split; [exact E|].
  unfold resume, await. unfold live in Hlive. rewrite Hlive.
  unfold readChunk. rewrite Hsplit.
  change (first :: bad :: second :: rest) with ([first; bad; second] ++ rest).
  rewrite processLines_app.
  destruct (processLines JSON_parse rest
              (processLines JSON_parse [first; bad; second] (c, st)))
    as [c' st'] eqn:E'.
  exists c', st'. split; reflexivity.
Qed.

(** A chunking that cuts between records changes nothing. *)
Lemma batching_of_whole_lines (chunks1 chunks2 : list string)
  (cs : Call.t * Hook) :
  linesOf chunks1 = linesOf chunks2 ->
  readChunks JSON_parse chunks1 cs = readChunks JSON_parse chunks2 cs.
Proof. intro H. now rewrite !readChunks_linesOf, H. Qed.

End Properties.

(** ** The hook run on concrete streams *)

Section Worked.

Import Example.
Import Reader.

Local Open Scope list_scope.

Lemma asking_value :
  asking
  = ({| messages := [userMessageOf fresh1 " Q1 "; placeholderOf fresh1];
        isLoading := true; conversationId := undefined;
        abortControllerRef := Some 0; controllers := 1; aborted := [];
        requests := [ {| Request.message := "Q1";
                         Request.conversation_id := undefined;
                         Request.authorization := Some "Bearer secret" |} ];
        created := []; toasts := []; invalidated := 0 |},
     Some {| Call.assistantId := "a1"; Call.controller := 0;
             Call.conversationId := undefined; Call.fullContent := "";
             Call.sources := Some (JArr []); Call.newConvId := undefined |}).
Proof. reflexivity. Qed.

(** The submission theorem at a blank text and at the text [ Q1 ]. *)
Lemma submit_appends_user_then_placeholder_witness :
  sendMessage (render start) fresh1 "   " start = (start, None)
  /\ exists st1 c,
       sendMessage (render start) fresh1 " Q1 " start = (st1, Some c)
       /\ messages st1
          = [ {| id := "u1"; role := user; content := "Q1";
                 sources := undefined; timestamp := 1000;
                 isStreaming := None |};
              {| id := "a1"; role := assistant; content := "";
                 sources := undefined; timestamp := 1001;
                 isStreaming := Some true |} ].
Proof.
  split.
  - apply (proj1 (submit_appends_user_then_placeholder
                    (render start) fresh1 "   " start)).
    reflexivity.
  - apply (proj2 (submit_appends_user_then_placeholder
                    (render start) fresh1 " Q1 " start)).
    + vm_compute. discriminate.
    + reflexivity.
Defined.

(** C3, as stated, fails on a hook whose first exchange is streaming: a
    second submission neither aborts the controller nor creates a
    placeholder. *)
Lemma submit_does_not_cancel_previous :
  ~ cancelsThenStarts fresh2 "Q2" (fst asking).
Proof.
  intros (st1 & c & previous & H & _).
  vm_compute in H. discriminate H.
Qed.

Lemma submit_while_streaming_is_noop_witness :
  Seen.isLoading (render (fst asking)) = true
  /\ sendMessage (render (fst asking)) fresh2 "Q2" (fst asking)
     = (fst asking, None).
Proof.
  split; [reflexivity|].
  apply (submit_while_streaming_is_noop (render (fst asking)) fresh2 "Q2").
  reflexivity.
Defined.

Lemma regenerate_while_streaming_only_truncates_witness :
  regenerateLastResponse (render (fst asking)) fresh2 (fst asking)
  = (setMessages (fun _ => [userMessageOf fresh1 " Q1 "]) (fst asking), None)
  /\ lastMessage [userMessageOf fresh1 " Q1 "]
     = Some (userMessageOf fresh1 " Q1 ").
Proof.
  destruct (regenerate_while_streaming_only_truncates fresh2 (fst asking)
              [] [] (userMessageOf fresh1 " Q1 ") (placeholderOf fresh1))
    as (H1 & H2 & _).
  - reflexivity.
  - reflexivity.
  - reflexivity.
  - reflexivity.
  - constructor.
  - reflexivity.
  - split; [exact H1|exact H2].
Defined.

Lemma stop_keeps_partial_answer_witness :
  exists st3 : Hook,
    resume parse (Chunk (chunkOf [token_tial]))
      (fst (reading [chunkOf [token_par]]))
      (stopStreaming (snd (reading [chunkOf [token_par]])))
    = (st3, None)
    /\ messages st3
       = [ {| id := "u1"; role := user; content := "Q1";
              sources := undefined; timestamp := 1000;
              isStreaming := None |};
           {| id := "a1"; role := assistant; content := "par";
              sources := undefined; timestamp := 1001;
              isStreaming := Some false |} ]
    /\ conversationId st3 = undefined
    /\ toasts st3 = [].
Proof.
  destruct (stop_keeps_partial_answer parse (render start) fresh1 " Q1 "
              start (fst asking) call1 [chunkOf [token_par]]
              (fst (reading [chunkOf [token_par]]))
              (snd (reading [chunkOf [token_par]]))
              (Chunk (chunkOf [token_tial])))
    as (st3 & H1 & _ & H3 & _ & H5 & H6 & _).
  - reflexivity.
  - constructor.
  - discriminate.
  - reflexivity.
  - exists st3. split; [exact H1|]. split; [exact H3|].
    split; [exact H5|exact H6].
Defined.

Lemma sources_absent_until_finalization_witness :
  map sources (messages (snd (reading [chunkOf [token_par; sources_2]])))
  = [undefined; undefined]
  /\ map sources
       (messages
          (fst (resume parse Done
                  (fst (reading [chunkOf [token_par; sources_2]]))
                  (snd (reading [chunkOf [token_par; sources_2]])))))
     = [ undefined;
         Some (JArr
                 [ JObj [("document_id", JStr "d1"); ("filename", JStr "a.pdf");
                         ("score", JNum "1"); ("excerpt", JStr "x")];
                   JObj [("document_id", JStr "d2"); ("filename", JStr "b.pdf");
                         ("page_number", JNum "3"); ("score", JNum "0");
                         ("excerpt", JStr "y")] ]) ].
Proof.
  destruct (sources_absent_until_finalization parse (render start) fresh1
              " Q1 " start (fst asking) call1
              [chunkOf [token_par; sources_2]]
              (fst (reading [chunkOf [token_par; sources_2]]))
              (snd (reading [chunkOf [token_par; sources_2]])))
    as (H1 & _ & _ & H4).
  - reflexivity.
  - constructor.
  - discriminate.
  - reflexivity.
  - split; [exact H1|]. apply H4. reflexivity.
Defined.

Lemma malformed_record_is_skipped_witness :
  exists c' st',
    resume parse (Chunk (chunkOf [token_par; not_json; token_tial]))
      call1 (fst asking)
    = (st', Some c')
    /\ Call.fullContent c' = "partial"%string
    /\ map content (messages st') = ["Q1"%string; "partial"%string].
Proof.
  destruct (malformed_record_is_skipped parse call1 (fst asking)
              (chunkOf [token_par; not_json; token_tial])
              token_par not_json token_tial "par" "tial" [EmptyString])
    as (_ & c' & st' & R & P).
  - reflexivity.
  - split; reflexivity.
  - reflexivity.
  - reflexivity.
  - reflexivity.
  - exists c', st'. split; [exact R|].
    apply (f_equal fst) in P as Pc. apply (f_equal snd) in P as Ps.
    cbn [fst snd] in Pc, Ps. rewrite Pc, Ps. split; reflexivity.
Defined.

(** C1 on the stream token, error, token: the error event changes nothing,
    the token after it is appended, and the stream ends as a success, with
    no failure text and no toast. *)
Theorem error_event_does_not_abort :
  decode parse error_X = ErrorEvent (Some (JStr "X"))
  /\ messages
       (fst (exchange [Response true 200 true;
                       Chunk (chunkOf [token_par; error_X; token_tial]);
                       Done]))
     = [ {| id := "u1"; role := user; content := "Q1"; sources := undefined;
            timestamp := 1000; isStreaming := None |};
         {| id := "a1"; role := assistant; content := "partial";
            sources := Some (JArr []); timestamp := 1001;
            isStreaming := Some false |} ]
  /\ toasts
       (fst (exchange [Response true 200 true;
                       Chunk (chunkOf [token_par; error_X; token_tial]);
                       Done]))
     = [].
Proof. vm_compute. repeat split. Qed.

(** C2 on the transcript user:Q1, assistant:A1: regeneration removes the
    answer and submits Q1 again, which appends a second user message with
    that text before the new placeholder. *)
Theorem regenerate_duplicates_user_message :
  map (fun m => (role m, content m)) (messages answered)
  = [(user, "Q1"%string); (assistant, "A1"%string)]
  /\ messages (fst (regenerateLastResponse (render answered) fresh2 answered))
     = [ {| id := "u1"; role := user; content := "Q1"; sources := undefined;
            timestamp := 1000; isStreaming := None |};
         {| id := "u2"; role := user; content := "Q1"; sources := undefined;
            timestamp := 2000; isStreaming := None |};
         {| id := "a2"; role := assistant; content := "";
            sources := undefined; timestamp := 2001;
            isStreaming := Some true |} ]
  /\ asked "Q1"
       (messages (fst (regenerateLastResponse (render answered) fresh2 answered)))
     = 2.
Proof. vm_compute. repeat split. Qed.

(** C4 on a stream with two conversation events, on a hook without a
    conversation identifier: both events set the identifier and both are
    notified. *)
Theorem second_conversation_event_wins :
  conversationId (fst asking) = undefined
  /\ conversationId
       (fst (exchange [Response true 200 true;
                       Chunk (chunkOf [conversation_A; conversation_B]);
                       Done]))
     = Some (JStr "B")
  /\ created
       (fst (exchange [Response true 200 true;
                       Chunk (chunkOf [conversation_A; conversation_B]);
                       Done]))
     = [Some (JStr "A"); Some (JStr "B")].
Proof. vm_compute. repeat split. Qed.

(** C5 on two token records with fragments Hel and lo: read as one chunk
    they give Hello, but cut inside the second record, the same bytes give
    Hel. *)
Theorem record_split_across_chunks_is_lost :
  (firstPart ++ secondPart)%string = twoTokens
  /\ fragments parse (linesOf [twoTokens]) = ["Hel"%string; "lo"%string]
  /\ answer (exchange [Response true 200 true; Chunk twoTokens; Done])
     = Some "Hello"%string
  /\ answer (exchange [Response true 200 true;
                       Chunk firstPart; Chunk secondPart; Done])
     = Some "Hel"%string.
Proof. vm_compute. repeat split. Qed.

End Worked.

(** ** How an exchange ends *)

Section Endings.

Local Open Scope list_scope.

Variable JSON_parse : string -> option JSON.

Lemma resume_live (net : Settled) (c : Call.t) (st : Hook) :
  live c st -> await st c net = net.
Proof. unfold live, await. now intros ->. Qed.

Lemma resume_aborted (net : Settled) (c : Call.t) (st : Hook) :
  In (Call.controller c) (aborted st) ->
  resume JSON_parse net c st = (finally (catch AbortError c st), None).
Proof.
  intro H. unfold resume, await.
  replace (existsb (Nat.eqb (Call.controller c)) (aborted st)) with true;
    [reflexivity|].
  symmetry. apply existsb_exists. exists (Call.controller c).
  split; [exact H|apply Nat.eqb_refl].
Qed.

(** X1. Completion.  When the stream of an exchange ends and no stop was asked
    for, the placeholder gets the concatenation of the fragments of all the
    lines read, the staged citation list and [isStreaming] false; the
    messages before it are untouched, the conversation cache is invalidated
    once, no toast is shown, and the hook is idle again. *)
Theorem completion_commits_answer
  (seen : Seen.t) (fresh : Fresh.t) (text : string) (st st1 : Hook)
  (c : Call.t) (chunks : list string) (c2 : Call.t) (st2 : Hook) :
  sendMessage seen fresh text st = (st1, Some c) ->
  unused (Fresh.assistantId fresh) (messages st) ->
  Fresh.userId fresh <> Fresh.assistantId fresh ->
  readChunks JSON_parse chunks (c, st1) = (c2, st2) ->
  live c2 st2 ->
  exists st3 : Hook,
    resume JSON_parse Done c2 st2 = (st3, None)
    /\ messages st3
       = messages st
         ++ [ userMessageOf fresh text;
              {| id := Fresh.assistantId fresh; role := assistant;
                 content := String.concat ""
                              (fragments JSON_parse (linesOf chunks));
                 sources := staged JSON_parse (Some (JArr [])) (linesOf chunks);
                 timestamp := Fresh.assistantTime fresh;
                 isStreaming := Some false |} ]
    /\ invalidated st3 = S (invalidated st)
    /\ toasts st3 = toasts st
    /\ isLoading st3 = false
    /\ abortControllerRef st3 = None.
Proof.
  intros Hsend Hold Hids Hread Hlive.
  destruct (in_flight JSON_parse _ _ _ _ _ _ _ _ _ Hsend Hold Hids Hread)
    as (Hms & _ & Hfc & Hst & Haid & _ & Hsess).
  destruct (sendMessage_starts _ _ _ _ _ _ Hsend)
    as (_ & _ & _ & _ & _ & _ & _ & _ & Ht & _ & Hi).
  destruct Hsess as (_ & _ & _ & _ & _ & Ht2 & Hi2).
  exists (finally (finalize c2 st2)). split.
  { unfold resume. now rewrite (resume_live _ _ _ Hlive). }
  cbn [finally finalize setRef setIsLoading invalidateQueries setMessages
       messages invalidated toasts isLoading abortControllerRef].
  split; [|repeat split; congruence].
  rewrite Hms, Haid, mapAt_app, (mapAt_unused _ _ _ Hold).
  cbn. apply String.eqb_neq in Hids. rewrite Hids, String.eqb_refl.
  rewrite Hfc, Hst. reflexivity.
Qed.

(** X2. Failure.  When the request or a read fails other than by an abort (a
    rejection, a response that is not ok, a response without body), the
    content of the placeholder is replaced by the fixed failure text, with
    [isStreaming] false and no citations; the user message and the messages
    before it are kept, one toast is shown, the conversation cache is not
    invalidated, and the hook is idle again. *)
Theorem failure_shows_failure_text
  (seen : Seen.t) (fresh : Fresh.t) (text : string) (st st1 : Hook)
  (c : Call.t) (chunks : list string) (c2 : Call.t) (st2 : Hook)
  (net : Settled) :
  sendMessage seen fresh text st = (st1, Some c) ->
  unused (Fresh.assistantId fresh) (messages st) ->
  Fresh.userId fresh <> Fresh.assistantId fresh ->
  readChunks JSON_parse chunks (c, st1) = (c2, st2) ->
  live c2 st2 ->
  failing net = true ->
  exists st3 : Hook,
    resume JSON_parse net c2 st2 = (st3, None)
    /\ messages st3
       = messages st
         ++ [ userMessageOf fresh text;
              {| id := Fresh.assistantId fresh; role := assistant;
                 content := failureText; sources := undefined;
                 timestamp := Fresh.assistantTime fresh;
                 isStreaming := Some false |} ]
    /\ toasts st3 = toasts st ++ [toastText]
    /\ invalidated st3 = invalidated st
    /\ conversationId st3 = conversationId st2
    /\ isLoading st3 = false
    /\ abortControllerRef st3 = None.
Proof.
  intros Hsend Hold Hids Hread Hlive Hfail.
  destruct (in_flight JSON_parse _ _ _ _ _ _ _ _ _ Hsend Hold Hids Hread)
    as (Hms & _ & _ & _ & Haid & _ & Hsess).
  destruct (sendMessage_starts _ _ _ _ _ _ Hsend)
    as (_ & _ & _ & _ & _ & _ & _ & _ & Ht & _ & Hi).
  destruct Hsess as (_ & _ & _ & _ & _ & Ht2 & Hi2).
  assert (Hshown :
    forall e, e <> AbortError ->
      messages (finally (catch e c2 st2))
      = messages st
        ++ [ userMessageOf fresh text;
             {| id := Fresh.assistantId fresh; role := assistant;
                content := failureText; sources := undefined;
                timestamp := Fresh.assistantTime fresh;
                isStreaming := Some false |} ]
      /\ toasts (finally (catch e c2 st2)) = toasts st ++ [toastText]
      /\ invalidated (finally (catch e c2 st2)) = invalidated st
      /\ conversationId (finally (catch e c2 st2)) = conversationId st2
      /\ isLoading (finally (catch e c2 st2)) = false
      /\ abortControllerRef (finally (catch e c2 st2)) = None).
  { intros e He.
    assert (E : catch e c2 st2
                = setMessages
                    (mapAt (Call.assistantId c2)
                       (fun m => withIsStreaming false (withContent failureText m)))
                    (toast_error toastText st2))
      by (destruct e; try reflexivity; contradiction).
    rewrite E.
    cbn [finally setRef setIsLoading setMessages toast_error messages toasts
         invalidated conversationId isLoading abortControllerRef].
    split; [|repeat split; congruence].
    rewrite Hms, Haid, mapAt_app, (mapAt_unused _ _ _ Hold).
    cbn. apply String.eqb_neq in Hids. rewrite Hids, String.eqb_refl.
    reflexivity. }
  unfold resume. rewrite (resume_live _ _ _ Hlive).
  destruct net as [ok status body|chunk| |e]; try discriminate Hfail.
  - cbn [failing] in Hfail. destruct ok; cbn [negb] in *.
    + destruct body; [discriminate Hfail|]. cbn [negb].
      eexists. split; [reflexivity|]. apply Hshown. discriminate.
    + eexists. split; [reflexivity|]. apply Hshown. discriminate.
  - eexists. split; [reflexivity|]. apply Hshown.
    intros ->. discriminate Hfail.
Qed.

(** X3. Reset during an exchange.  [resetChat] empties the transcript and
    forgets the conversation identifier at once, but leaves [isLoading] as
    it is; the call in flight then ends at its next await, whatever the
    network had for it, without bringing any message back and without a
    toast, and only then is the hook idle. *)
Theorem reset_during_exchange
  (c : Call.t) (st : Hook) (net : Settled) :
  abortControllerRef st = Some (Call.controller c) ->
  messages (resetChat st) = []
  /\ conversationId (resetChat st) = undefined
  /\ isLoading (resetChat st) = isLoading st
  /\ exists st' : Hook,
       resume JSON_parse net c (resetChat st) = (st', None)
       /\ messages st' = []
       /\ conversationId st' = undefined
       /\ isLoading st' = false
       /\ abortControllerRef st' = None
       /\ toasts st' = toasts st
       /\ invalidated st' = invalidated st.
Proof.
  intro Href.
  assert (Hin : In (Call.controller c) (aborted (resetChat st))).
  { unfold resetChat, stopStreaming, abortCurrent. rewrite Href. cbn. auto. }
  split; [reflexivity|]. split; [reflexivity|]. split.
  { unfold resetChat, stopStreaming, abortCurrent. now rewrite Href. }
  exists (finally (catch AbortError c (resetChat st))).
  split; [exact (resume_aborted net c _ Hin)|].
  unfold resetChat, stopStreaming, abortCurrent. rewrite Href.
  cbn. repeat split; reflexivity.
Qed.

(** X4. Once a call has ended, however it ended, the hook is idle and holds no
    controller, so a stop that comes late changes nothing. *)
Theorem stop_after_the_end_is_noop
  (net : Settled) (c : Call.t) (st st' : Hook) :
  resume JSON_parse net c st = (st', None) ->
  isLoading st' = false
  /\ abortControllerRef st' = None
  /\ stopStreaming st' = st'.
Proof.
  intro H.
  assert (E : exists x, st' = finally x).
  { unfold resume in H.
    destruct (await st c net) as [ok status body|chunk| |e].
    - destruct ok, body; cbn [negb] in H; inversion H; eauto.
    - destruct (readChunk JSON_parse chunk (c, st)); discriminate H.
    - inversion H; eauto.
    - inversion H; eauto. }
  destruct E as [x ->]. repeat split; reflexivity.
Qed.

End Endings.

(** ** What the decoder is indifferent to *)

Section Decoding.

Local Open Scope list_scope.

Variable JSON_parse : string -> option JSON.

Lemma skipped_line_is_noop (line : string) (cs : Call.t * Hook) :
  decode JSON_parse line = Skipped -> processLine JSON_parse line cs = cs.
Proof. intro H. rewrite processLine_decode, H. destruct cs; reflexivity. Qed.

Lemma skipped_line_can_go (line : string) (before after : list string)
  (cs : Call.t * Hook) :
  decode JSON_parse line = Skipped ->
  processLines JSON_parse (before ++ line :: after) cs
  = processLines JSON_parse (before ++ after) cs.
Proof.
  intro H. rewrite !processLines_app.
  change (line :: after) with ([line] ++ after).
  rewrite processLines_app. f_equal.
  unfold processLines. cbn [fold_left].
  apply (skipped_line_is_noop _ _ H).
Qed.

Lemma passedOver_Skipped (line : string) :
  passedOver JSON_parse line -> decode JSON_parse line = Skipped.
Proof.
  unfold decode, decodePayload.
  intros [H|[H|[H|[(v & H & Hv)|(ms & H & H1 & H2 & H3 & H4)]]]].
  - now rewrite H.
  - destruct (startsWith "data: " line); [|reflexivity].
    cbv zeta. rewrite H. reflexivity.
  - destruct (startsWith "data: " line); [|reflexivity].
    cbv zeta. destruct (String.eqb _ "[DONE]"); [reflexivity|].
    now rewrite H.
  - destruct (startsWith "data: " line); [|reflexivity].
    cbv zeta. destruct (String.eqb _ "[DONE]"); [reflexivity|].
    rewrite H. destruct v; try reflexivity. now destruct (Hv members).
  - destruct (startsWith "data: " line); [|reflexivity].
    cbv zeta. destruct (String.eqb _ "[DONE]"); [reflexivity|].
    rewrite H. cbn [get]. now rewrite H1, H2, H3, H4.
Qed.

(** X5. Lines the loop passes over.  A line without the framing marker, the
    [DONE] sentinel, a payload that does not parse or is not an object, and
    an object whose [type] is unknown change nothing wherever they stand
    among the lines: in particular the sentinel does not end the stream, the
    records after it are still folded. *)
Theorem passed_over_lines_change_nothing
  (line : string) (before after : list string) (cs : Call.t * Hook) :
  passedOver JSON_parse line ->
  processLines JSON_parse (before ++ line :: after) cs
  = processLines JSON_parse (before ++ after) cs.
Proof.
  intro H. apply skipped_line_can_go. now apply passedOver_Skipped.
Qed.

(** *** Chunks cut at a line feed *)

Lemma split_nonempty (s : string) : split s <> [].
Proof.
  destruct s as [|a r]; cbn; [discriminate|].
  destruct (code a =? 10)%N; [discriminate|].
  destruct (split r); discriminate.
Qed.

Lemma split_at_line_feed (a b : string) :
  split (a ++ LF ++ b)%string = split a ++ split b.
Proof.
  induction a as [|x a IH]; [reflexivity|].
  cbn [append split]. cbn [append] in IH. rewrite IH.
  destruct (code x =? 10)%N; [reflexivity|].
  pose proof (split_nonempty a) as Hne.
  destruct (split a) as [|h t]; [contradiction|]. reflexivity.
Qed.

Lemma split_ends_with_line_feed (a : string) :
  split (a ++ LF)%string = split a ++ [EmptyString].
Proof.
  rewrite <- (append_empty_r (a ++ LF)), append_assoc.
  apply (split_at_line_feed a ""%string).
Qed.

Lemma split_starts_with_line_feed (b : string) :
  split (LF ++ b)%string = EmptyString :: split b.
Proof. reflexivity. Qed.

Lemma empty_line_Skipped : decode JSON_parse EmptyString = Skipped.
Proof. reflexivity. Qed.

(** X6. A chunk cut right after or right before a line feed.  Delivering the
    text around a line feed as two chunks, the line feed ending the first or
    starting the second, gives the same call and the same hook as delivering
    it as one chunk, whatever chunks come before and after. *)
Theorem cut_at_line_feed_changes_nothing
  (before after : list string) (a b : string) (cs : Call.t * Hook) :
  readChunks JSON_parse (before ++ [(a ++ LF)%string; b] ++ after) cs
  = readChunks JSON_parse (before ++ [(a ++ LF ++ b)%string] ++ after) cs
  /\ readChunks JSON_parse (before ++ [a; (LF ++ b)%string] ++ after) cs
     = readChunks JSON_parse (before ++ [(a ++ LF ++ b)%string] ++ after) cs.
Proof.
  rewrite !readChunks_linesOf. unfold linesOf.
  rewrite !flat_map_app. cbn [flat_map]. rewrite !app_nil_r.
  rewrite split_at_line_feed, split_ends_with_line_feed,
    split_starts_with_line_feed.
  split.
  - rewrite <- !app_assoc. cbn [app].
    rewrite !(app_assoc (flat_map split before)).
    apply skipped_line_can_go, empty_line_Skipped.
  - rewrite <- !app_assoc. cbn [app].
    rewrite !(app_assoc (flat_map split before)).
    apply skipped_line_can_go, empty_line_Skipped.
Qed.

End Decoding.

Section CarriageReturn.

Local Open Scope list_scope.

Variable JSON_parse : string -> option JSON.

Lemma ws2_cr (a : ascii) : ws2 a (ascii_of_N 13) = false.
Proof. unfold ws2. cbn. apply andb_false_r. Qed.

Lemma ws3_cr (a b : ascii) : ws3 a b (ascii_of_N 13) = false.
Proof.
  unfold ws3. cbn.
  destruct (code a =? 225)%N, (code a =? 226)%N, (code a =? 227)%N,
    (code a =? 239)%N, (code b =? 154)%N, (code b =? 128)%N,
    (code b =? 129)%N, (code b =? 187)%N; reflexivity.
Qed.

Lemma trimStart_cr (s : string) :
  trimStart (s ++ CR)%string = (trimStart s ++ CR)%string
  \/ (trimStart s = ""%string /\ trimStart (s ++ CR)%string = ""%string).
Proof.
  unfold trimStart, CR.
  induction s as [s IH] using (induction_ltof1 _ String.length).
  unfold ltof in IH.
  destruct s as [|a r1]; [right; split; reflexivity|].
  cbn [append dropSpace]. destruct (ws1 a).
  { apply IH. cbn. lia. }
  destruct r1 as [|b r2].
  { left. cbn [append]. now rewrite ws2_cr. }
  cbn [append]. destruct (ws2 a b).
  { apply IH. cbn. lia. }
  destruct r2 as [|c r3].
  { left. cbn [append]. now rewrite ws3_cr. }
  cbn [append]. destruct (ws3 a b c).
  { apply IH. cbn. lia. }
  left. reflexivity.
Qed.

Lemma reverse_snoc (s : string) (a : ascii) :
  reverse (s ++ String a "")%string = String a (reverse s).
Proof.
  unfold reverse.
  assert (E : forall t u, list_ascii_of_string (t ++ u)%string
                          = list_ascii_of_string t ++ list_ascii_of_string u).
  { induction t as [|x t IHt]; intro u; cbn; [reflexivity|]. now rewrite IHt. }
  rewrite E, rev_app_distr. reflexivity.
Qed.

Lemma trimEnd_cr (s : string) : trimEnd (s ++ CR)%string = trimEnd s.
Proof. unfold trimEnd, CR. rewrite reverse_snoc. reflexivity. Qed.

Lemma trim_cr (s : string) : trim (s ++ CR)%string = trim s.
Proof.
  unfold trim. destruct (trimStart_cr s) as [E|[E1 E2]].
  - rewrite E. apply trimEnd_cr.
  - now rewrite E1, E2.
Qed.

Lemma marker_cr (line : string) :
  startsWith "data: " (line ++ CR)%string = startsWith "data: " line
  /\ (startsWith "data: " line = true ->
      slice 6 (line ++ CR)%string = (slice 6 line ++ CR)%string).
Proof.
  unfold startsWith.
  do 6 (destruct line as [|? line];
        [split; [reflexivity|discriminate]|];
        cbn [append String.prefix slice];
        match goal with
        | |- context [if ?d then _ else false] =>
            destruct d; [|split; [reflexivity|discriminate]]
        end).
  split; [destruct line; reflexivity|reflexivity].
Qed.

Lemma decode_cr (line : string) :
  decode JSON_parse (line ++ CR)%string = decode JSON_parse line.
Proof.
  unfold decode. destruct (marker_cr line) as [E1 E2]. rewrite E1.
  destruct (startsWith "data: " line); [|reflexivity].
  now rewrite (E2 eq_refl), trim_cr.
Qed.

(** X7. Carriage returns.  Lines that end with a carriage return, as in a stream
    whose records end with CR LF, are decoded and folded like the lines
    without it. *)
Theorem carriage_returns_change_nothing
  (lines : list string) (cs : Call.t * Hook) :
  processLines JSON_parse (map (fun line => (line ++ CR)%string) lines) cs
  = processLines JSON_parse lines cs.
Proof.
  rewrite !processLines_decode. revert cs.
  induction lines as [|line rest IH]; intro cs; cbn [map fold_left];
    [reflexivity|].
  now rewrite decode_cr, IH.
Qed.

End CarriageReturn.

(** ** The conversation identifier and the content during an exchange *)

Section Exchange.

Local Open Scope list_scope.

Variable JSON_parse : string -> option JSON.

Lemma fold_keeps_conversation (e : Event) (c : Call.t) (st : Hook) :
  falsy (Call.conversationId c) = false ->
  conversationId (snd (fold e (c, st))) = conversationId st
  /\ created (snd (fold e (c, st))) = created st.
Proof. intro H. destruct e; cbn; rewrite ?H; auto. Qed.

Lemma processLines_keeps_conversation (lines : list string) (c : Call.t)
  (st : Hook) :
  falsy (Call.conversationId c) = false ->
  conversationId (snd (processLines JSON_parse lines (c, st)))
  = conversationId st
  /\ created (snd (processLines JSON_parse lines (c, st))) = created st.
Proof.
  rewrite processLines_decode. revert c st.
  induction lines as [|line rest IH]; intros c st H; cbn [fold_left];
    [auto|].
  pose proof (fold_keeps_conversation (decode JSON_parse line) c st H) as [H1 H2].
  pose proof (fold_frame JSON_parse (decode JSON_parse line) c st) as [(_ & _ & Hc) _].
  destruct (fold (decode JSON_parse line) (c, st)) as [c1 st1].
  cbn [fst snd] in *. rewrite <- Hc in H.
  destruct (IH c1 st1 H) as [I1 I2]. split; congruence.
Qed.

Lemma resume_keeps_conversation (net : Settled) (c : Call.t) (st : Hook) :
  falsy (Call.conversationId c) = false ->
  conversationId (fst (resume JSON_parse net c st)) = conversationId st
  /\ created (fst (resume JSON_parse net c st)) = created st
  /\ match snd (resume JSON_parse net c st) with
     | Some c' => Call.conversationId c' = Call.conversationId c
     | None => True
     end.
Proof.
  intro H. unfold resume.
  destruct (await st c net) as [ok status body|chunk| |e].
  - destruct ok, body; cbn; auto.
  - pose proof (processLines_keeps_conversation (split chunk) c st H) as [H1 H2].
    pose proof (processLines_frame JSON_parse (split chunk) c st)
      as [(_ & _ & Hc) _].
    unfold readChunk.
    destruct (processLines JSON_parse (split chunk) (c, st)) as [c' st'].
    cbn [fst snd] in *. auto.
  - cbn. auto.
  - destruct e; cbn; auto.
Qed.

(** X8. A conversation identifier the render already had.  When [sendMessage]
    is called from a render whose [conversationId] is set (truthy), nothing
    the exchange receives changes the hook's [conversationId] or notifies
    the caller of a created conversation, however the exchange goes on and
    ends. *)
Theorem known_conversation_is_kept
  (seen : Seen.t) (fresh : Fresh.t) (text : string) (st st1 : Hook)
  (c : Call.t) (nets : list Settled) :
  sendMessage seen fresh text st = (st1, Some c) ->
  falsy (Seen.conversationId seen) = false ->
  conversationId (fst (run JSON_parse nets c st1)) = conversationId st
  /\ created (fst (run JSON_parse nets c st1)) = created st.
Proof.
  intros Hsend Hseen.
  destruct (sendMessage_starts _ _ _ _ _ _ Hsend)
    as (_ & _ & _ & Hc & _ & Hid & _ & _ & _ & Hcr & _).
  assert (Hcall : falsy (Call.conversationId c) = false) by now rewrite Hc.
  rewrite <- Hid, <- Hcr. clear Hsend Hc Hid Hcr Hseen.
  revert c st1 Hcall.
  induction nets as [|net rest IH]; intros c st1 Hcall; cbn [run]; [auto|].
  pose proof (resume_keeps_conversation net c st1 Hcall) as (H1 & H2 & H3).
  destruct (resume JSON_parse net c st1) as [st' [c'|]]; cbn [fst snd] in *.
  - rewrite <- H1, <- H2. apply IH. now rewrite H3.
  - auto.
Qed.

Lemma fragments_app (l1 l2 : list string) :
  fragments JSON_parse (l1 ++ l2)
  = fragments JSON_parse l1 ++ fragments JSON_parse l2.
Proof.
  induction l1 as [|line l1 IH]; cbn [app fragments]; [reflexivity|].
  destruct (decode JSON_parse line); rewrite IH; reflexivity.
Qed.

Lemma processLines_fullContent (lines : list string) (c : Call.t) (st : Hook) :
  Call.fullContent (fst (processLines JSON_parse lines (c, st)))
  = (Call.fullContent c
     ++ String.concat "" (fragments JSON_parse lines))%string.
Proof.
  rewrite processLines_decode. revert c st.
  induction lines as [|line rest IH]; intros c st; cbn [fold_left fragments].
  - cbn. now rewrite append_empty_r.
  - pose proof (fold_fullContent (decode JSON_parse line) c st) as H.
    destruct (fold (decode JSON_parse line) (c, st)) as [c1 st1].
    cbn [fst] in H. rewrite IH, H.
    destruct (decode JSON_parse line); rewrite ?append_empty_r; try reflexivity.
    rewrite append_assoc. f_equal.
    destruct (fragments JSON_parse rest); cbn; now rewrite ?append_empty_r.
Qed.

(** X9. The content only grows.  While an exchange streams, reading further
    chunks appends to the content the placeholder already shows (the
    fragments of the token events of those chunks, in order) and never
    rewrites what was shown; the other messages stay as they are. *)
Theorem content_only_grows
  (seen : Seen.t) (fresh : Fresh.t) (text : string) (st st1 : Hook)
  (c : Call.t) (earlier later : list string)
  (c2 c3 : Call.t) (st2 st3 : Hook) :
  sendMessage seen fresh text st = (st1, Some c) ->
  unused (Fresh.assistantId fresh) (messages st) ->
  Fresh.userId fresh <> Fresh.assistantId fresh ->
  readChunks JSON_parse earlier (c, st1) = (c2, st2) ->
  readChunks JSON_parse later (c2, st2) = (c3, st3) ->
  exists shown : string,
    messages st2
    = messages st
      ++ [userMessageOf fresh text; withContent shown (placeholderOf fresh)]
    /\ messages st3
       = messages st
         ++ [ userMessageOf fresh text;
              withContent
                (shown ++ String.concat ""
                            (fragments JSON_parse (linesOf later)))%string
                (placeholderOf fresh) ].
Proof.
  intros Hsend Hold Hids H2 H3.
  destruct (in_flight JSON_parse _ _ _ _ _ _ _ _ _ Hsend Hold Hids H2)
    as (Hms2 & _).
  assert (H23 : readChunks JSON_parse (earlier ++ later) (c, st1) = (c3, st3)).
  { unfold readChunks in *. now rewrite fold_left_app, H2. }
  destruct (in_flight JSON_parse _ _ _ _ _ _ _ _ _ Hsend Hold Hids H23)
    as (Hms3 & _).
  exists (Call.fullContent c2). split; [exact Hms2|].
  rewrite readChunks_linesOf in H3.
  pose proof (processLines_fullContent (linesOf later) c2 st2) as E.
  rewrite H3 in E. cbn [fst] in E. now rewrite Hms3, E.
Qed.

End Exchange.

(** ** Regeneration and the input box *)

Section Callbacks.

Local Open Scope list_scope.

Lemma lastIndexOf_assistant (prev : list Message) :
  match lastIndexOf assistant (map role prev) with
  | None => Forall (fun m => role m = user) prev
  | Some i =>
      exists a post,
        prev = firstn i prev ++ a :: post
        /\ role a = assistant
        /\ Forall (fun m => role m = user) post
  end.
Proof.
  induction prev as [|m prev IH]; cbn [map lastIndexOf]; [constructor|].
  destruct (lastIndexOf assistant (map role prev)) as [i|].
  - destruct IH as (a & post & E & Ha & Hpost).
    exists a, post. cbn [firstn app]. repeat split; try assumption.
    now rewrite <- E.
  - destruct (role m) eqn:Em; cbn [Role_eqb].
    + constructor; assumption.
    + exists m, prev. repeat split; assumption.
Qed.

(** X11. What regeneration removes.  The updater keeps a prefix of the
    transcript: either there is no assistant message and everything is
    kept, or what is dropped starts with the last assistant message and is
    followed by user messages only. *)
Theorem dropLastAssistant_cuts_at_last_answer (prev : list Message) :
  (Forall (fun m => role m = user) prev /\ dropLastAssistant prev = prev)
  \/ exists a post,
       prev = dropLastAssistant prev ++ a :: post
       /\ role a = assistant
       /\ Forall (fun m => role m = user) post.
Proof.
  unfold dropLastAssistant.
  pose proof (lastIndexOf_assistant prev) as H.
  destruct (lastIndexOf assistant (map role prev)) as [i|].
  - right. exact H.
  - left. split; [exact H|reflexivity].
Qed.

(** X12. Regeneration without a question.  When the transcript the render shows
    has no user message, as when it is empty, [regenerateLastResponse]
    changes nothing and starts nothing. *)
Theorem regenerate_without_user_message_is_noop
  (seen : Seen.t) (fresh : Fresh.t) (st : Hook) :
  Forall (fun m => role m = assistant) (Seen.messages seen) ->
  regenerateLastResponse seen fresh st = (st, None).
Proof.
  intro H. unfold regenerateLastResponse.
  destruct (find (fun m => Role_eqb (role m) user) (rev (Seen.messages seen)))
    as [m|] eqn:E; [|reflexivity].
  apply find_some in E as [Hin Hu]. apply in_rev in Hin.
  rewrite Forall_forall in H. rewrite (H m Hin) in Hu. discriminate Hu.
Qed.

Lemma find_last_user (pre post : list Message) (u : Message) :
  role u = user ->
  Forall (fun m => role m = assistant) post ->
  find (fun m => Role_eqb (role m) user) (rev (pre ++ u :: post)) = Some u.
Proof.
  intros Hu Hpost. rewrite rev_app_distr. cbn [rev]. rewrite <- app_assoc.
  cbn [app].
  assert (Hrev : Forall (fun m => role m = assistant) (rev post)).
  { rewrite Forall_forall in *. intros m Hm. apply Hpost.
    now apply in_rev. }
  induction Hrev as [|m l Hm _ IH]; cbn [app find].
  - now rewrite Hu.
  - now rewrite Hm.
Qed.

Lemma sendMessage_requests (seen : Seen.t) (fresh : Fresh.t) (text : string)
  (st st1 : Hook) (c : Call.t) :
  sendMessage seen fresh text st = (st1, Some c) ->
  exists r,
    requests st1 = requests st ++ [r]
    /\ Request.message r = trim text
    /\ Request.conversation_id r = Seen.conversationId seen.
Proof.
  unfold sendMessage.
  destruct (String.eqb (trim text) "" || Seen.isLoading seen);
    [discriminate|].
  intro H. injection H as <- _.
  unfold abortCurrent. destruct (abortControllerRef st);
    (eexists; split; [reflexivity|split; reflexivity]).
Qed.

(** X13. What regeneration asks for.  On a hook that is idle,
    [regenerateLastResponse] sends exactly one request; it carries the
    trimmed text of the most recent user message of the transcript and the
    conversation identifier of the render. *)
Theorem regenerate_asks_the_last_question_again
  (seen : Seen.t) (fresh : Fresh.t) (st : Hook) (pre post : list Message)
  (u : Message) :
  Seen.isLoading seen = false ->
  Seen.messages seen = pre ++ u :: post ->
  role u = user ->
  Forall (fun m => role m = assistant) post ->
  trim (content u) <> ""%string ->
  exists st1 c r,
    regenerateLastResponse seen fresh st = (st1, Some c)
    /\ requests st1 = requests st ++ [r]
    /\ Request.message r = trim (content u)
    /\ Request.conversation_id r = Seen.conversationId seen.
Proof.
  intros Hl Hms Hu Hpost Ht. unfold regenerateLastResponse.
  rewrite Hms, (find_last_user pre post u Hu Hpost).
  destruct (sendMessage seen fresh (content u)
              (setMessages dropLastAssistant st)) as [st1 [c|]] eqn:E.
  - destruct (sendMessage_requests _ _ _ _ _ _ E) as (r & H1 & H2 & H3).
    exists st1, c, r. auto.
  - exfalso. unfold sendMessage in E. apply String.eqb_neq in Ht.
    rewrite Ht, Hl in E. discriminate E.
Qed.

(** X16. The input box.  A key pressed in the box calls [sendMessage] only if it
    is Enter without Shift, the text is not blank and the hook is idle; the
    call then always starts an exchange with that text, and only then is the
    box cleared.  In every other case the text stays as typed and nothing
    else changes. *)
Theorem key_press_sends_or_keeps_text
  (key : string) (shiftKey : bool) (input : string) (fresh : Fresh.t)
  (st : Hook) :
  match keyDown key shiftKey input fresh st with
  | (input', Some (st', Some c)) =>
      key = "Enter"%string /\ shiftKey = false
      /\ trim input <> ""%string /\ isLoading st = false
      /\ input' = ""%string
      /\ messages st'
         = messages st ++ [userMessageOf fresh input; placeholderOf fresh]
  | (input', Some (st', None)) => False
  | (input', None) => input' = input
  end.
Proof.
  unfold keyDown, ChatInput.handleKeyDown, ChatInput.handleSend.
  destruct (String.eqb key "Enter") eqn:Ek; cbn [andb]; [|reflexivity].
  destruct shiftKey; cbn [negb]; [reflexivity|].
  destruct (String.eqb (trim input) "") eqn:Et; cbn [orb]; [reflexivity|].
  destruct (isLoading st) eqn:El; [reflexivity|].
  destruct (sendMessage (render st) fresh input st) as [st' [c|]] eqn:E.
  - destruct (sendMessage_starts _ _ _ _ _ _ E) as (_ & _ & Hms & _).
    apply String.eqb_eq in Ek. apply String.eqb_neq in Et. auto 10.
  - unfold sendMessage in E. cbn [render Seen.isLoading] in E.
    rewrite Et, El in E. discriminate E.
Qed.

End Callbacks.

(** ** The document viewer *)

Section Viewer.

Import PDFViewer.

Local Open Scope Z_scope.

(** X17. Page navigation.  Once a document is loaded and the current page is one
    of its pages, no sequence of clicks on the previous and next buttons
    leads outside the document. *)
Theorem pages_stay_in_range (numPages p : Z) (clicks : list Click) :
  1 <= p <= numPages ->
  1 <= fold_left (click numPages) clicks p <= numPages.
Proof.
  revert p. induction clicks as [|c rest IH]; intros p H; cbn [fold_left];
    [exact H|].
  apply IH. destruct c; unfold click, goToPrevPage, goToNextPage; lia.
Qed.

Lemma rotate_quarter (k : Z) :
  0 <= k -> rotate (90 * (k mod 4)) = 90 * ((k + 1) mod 4).
Proof.
  intro Hk. unfold rotate.
  assert (Hr : 0 <= k mod 4 < 4) by (apply Z.mod_pos_bound; lia).
  rewrite Z.rem_mod_nonneg by lia.
  rewrite <- (Zplus_mod_idemp_l k 1 4).
  assert (C : k mod 4 = 0 \/ k mod 4 = 1 \/ k mod 4 = 2 \/ k mod 4 = 3) by lia.
  destruct C as [E|[E|[E|E]]]; rewrite E; reflexivity.
Qed.

(** X18. Rotation.  Starting from the upright page, after [n] clicks on the
    rotate button the rotation is 90 times the remainder of [n] by 4
    degrees: it is always 0, 90, 180 or 270, and four clicks bring the page
    back. *)
Theorem rotation_after_clicks (n : nat) :
  Nat.iter n rotate 0 = 90 * (Z.of_nat n mod 4).
Proof.
  induction n as [|n IH]; [reflexivity|].
  change (Nat.iter (S n) rotate 0) with (rotate (Nat.iter n rotate 0)).
  rewrite IH, rotate_quarter by lia.
  f_equal. f_equal. lia.
Qed.

Local Open Scope list_scope.

Lemma splitOn_nonempty (sep : ascii) (s : string) : splitOn sep s <> [].
Proof.
  destruct s as [|a r]; cbn; [discriminate|].
  destruct (Ascii.eqb a sep); [discriminate|].
  destruct (splitOn sep r); discriminate.
Qed.

Lemma splitOn_last_has_no_sep (sep : ascii) (s : string) :
  has sep (last (splitOn sep s) EmptyString) = false.
Proof.
  induction s as [|a r IH]; [reflexivity|].
  cbn [splitOn]. pose proof (splitOn_nonempty sep r) as Hne.
  destruct (Ascii.eqb a sep) eqn:E.
  - destruct (splitOn sep r) as [|h t]; [contradiction|]. exact IH.
  - destruct (splitOn sep r) as [|h t]; [contradiction|].
    destruct t as [|h' t'].
    + cbn [last] in *. cbn [has]. now rewrite E, IH.
    + exact IH.
Qed.

Lemma splitOn_at_sep (sep : ascii) (a b : string) :
  splitOn sep (a ++ String sep b)%string = splitOn sep a ++ splitOn sep b.
Proof.
  induction a as [|x a IH]; cbn [append splitOn app].
  - now rewrite Ascii.eqb_refl.
  - rewrite IH. destruct (Ascii.eqb x sep); [reflexivity|].
    pose proof (splitOn_nonempty sep a) as Hne.
    destruct (splitOn sep a) as [|h t]; [contradiction|]. reflexivity.
Qed.

Lemma splitOn_without_sep (sep : ascii) (s : string) :
  has sep s = false -> splitOn sep s = [s].
Proof.
  induction s as [|a r IH]; [reflexivity|].
  cbn [has splitOn]. intro H. apply orb_false_iff in H as [H1 H2].
  now rewrite H1, (IH H2).
Qed.

(** X19. The name offered for download.  It is never empty and never contains a
    slash; for a URL that ends with a slash followed by a name without
    slash, it is that name. *)
Theorem filename_is_last_segment (url : string) :
  filename url <> ""%string
  /\ has slash (filename url) = false
  /\ forall dir name : string,
       url = (dir ++ String slash name)%string ->
       has slash name = false ->
       name <> ""%string ->
       filename url = name.
Proof.
  unfold filename. split; [|split].
  - destruct (String.eqb (last (splitOn slash url) "") "") eqn:E;
      [discriminate|]. now apply String.eqb_neq.
  - destruct (String.eqb (last (splitOn slash url) "") "");
      [reflexivity|apply splitOn_last_has_no_sep].
  - intros dir name -> Hname Hne.
    rewrite splitOn_at_sep, (splitOn_without_sep _ _ Hname), last_last.
    apply String.eqb_neq in Hne. now rewrite Hne.
Qed.

End Viewer.

(** ** Invariants of a session *)

Section SessionInvariants.

Local Open Scope list_scope.

Variable JSON_parse : string -> option JSON.

Lemma sendMessage_returns (seen : Seen.t) (fresh : Fresh.t) (text : string)
  (st st' : Hook) :
  sendMessage seen fresh text st = (st', None) -> st' = st.
Proof.
  unfold sendMessage.
  destruct (String.eqb (trim text) "" || Seen.isLoading seen);
    [now intros [= <-]|discriminate].
Qed.

Lemma fold_flags (e : Event) (c : Call.t) (st : Hook) :
  flags (messages (snd (fold e (c, st)))) = flags (messages st).
Proof.
  destruct e; cbn; try destruct (falsy (Call.conversationId c)); cbn;
    try reflexivity.
  all: unfold flags, mapAt; rewrite map_map; apply map_ext; intro m;
    destruct (String.eqb (id m) (Call.assistantId c)); reflexivity.
Qed.

Lemma processLines_flags (lines : list string) (c : Call.t) (st : Hook) :
  flags (messages (snd (processLines JSON_parse lines (c, st))))
  = flags (messages st).
Proof.
  rewrite processLines_decode. revert c st.
  induction lines as [|line rest IH]; intros c st; cbn [fold_left];
    [reflexivity|].
  pose proof (fold_flags (decode JSON_parse line) c st) as H.
  destruct (fold (decode JSON_parse line) (c, st)) as [c1 st1].
  rewrite IH. exact H.
Qed.

Lemma resume_continues (net : Settled) (c c' : Call.t) (st st' : Hook) :
  resume JSON_parse net c st = (st', Some c') ->
  sameSession st st' /\ sameCall c c'
  /\ flags (messages st') = flags (messages st).
Proof.
  unfold resume. destruct (await st c net) as [ok status body|chunk| |e].
  - destruct ok, body; cbn [negb]; intros [= <- <-];
      unfold sameSession, sameCall; tauto.
  - unfold readChunk.
    pose proof (processLines_frame JSON_parse (split chunk) c st) as [Hc Hs].
    pose proof (processLines_flags (split chunk) c st) as Hf.
    destruct (processLines JSON_parse (split chunk) (c, st)) as [c1 st1].
    intros [= <- <-]. auto.
  - discriminate.
  - discriminate.
Qed.

Lemma resume_ends (net : Settled) (c : Call.t) (st st' : Hook) :
  resume JSON_parse net c st = (st', None) ->
  isLoading st' = false
  /\ abortControllerRef st' = None
  /\ exists g : Message -> Message,
       (forall m, id (g m) = id m /\ isStreaming (g m) = Some false)
       /\ messages st' = mapAt (Call.assistantId c) g (messages st).
Proof.
  assert (Hcatch : forall e,
    exists g : Message -> Message,
      (forall m, id (g m) = id m /\ isStreaming (g m) = Some false)
      /\ messages (finally (catch e c st))
         = mapAt (Call.assistantId c) g (messages st)).
  { intro e. destruct e; eexists; (split; [|reflexivity]);
      intro m; split; reflexivity. }
  unfold resume. destruct (await st c net) as [ok status body|chunk| |e].
  - destruct ok, body; cbn [negb]; try discriminate;
      intros [= <-]; (split; [reflexivity|split; [reflexivity|]]);
      first [ exact (Hcatch (Error "No response body"))
            | exact (Hcatch (Error ("HTTP error! status: "
                                    ++ statusText status)%string)) ].
  - destruct (readChunk JSON_parse chunk (c, st)); discriminate.
  - intros [= <-]. split; [reflexivity|]. split; [reflexivity|].
    eexists. split; [|reflexivity]. intro m; split; reflexivity.
  - intros [= <-]. split; [reflexivity|split; [reflexivity|exact (Hcatch e)]].
Qed.

Lemma oneCall_hook (h h' : Hook) (cs : list Call.t) :
  isLoading h' = isLoading h ->
  abortControllerRef h' = abortControllerRef h ->
  oneCall {| hook := h; calls := cs |} ->
  oneCall {| hook := h'; calls := cs |}.
Proof.
  unfold oneCall. cbn [hook calls]. intros -> ->. exact (fun H => H).
Qed.

Lemma oneCall_idle (s : System) :
  oneCall s -> isLoading (hook s) = false -> calls s = [].
Proof.
  unfold oneCall. destruct (calls s) as [|c [|c' cs]]; [reflexivity| |].
  - intros [H _] H'. congruence.
  - contradiction.
Qed.

Lemma oneCall_opened (seen : Seen.t) (fresh : Fresh.t) (text : string)
  (h : Hook) (s : System) :
  Seen.isLoading seen = isLoading (hook s) ->
  isLoading h = isLoading (hook s) ->
  abortControllerRef h = abortControllerRef (hook s) ->
  oneCall s ->
  oneCall (opened (sendMessage seen fresh text h) (calls s)).
Proof.
  intros Hseen Hl Hr Hinv.
  destruct (sendMessage seen fresh text h) as [st' [c|]] eqn:E.
  - destruct (sendMessage_starts _ _ _ _ _ _ E)
      as (_ & Hidle & _ & Hc & Hload & _ & Href & _).
    rewrite Hseen in Hidle. rewrite (oneCall_idle s Hinv Hidle).
    unfold opened, oneCall. cbn. rewrite Hc. cbn. auto.
  - apply sendMessage_returns in E. subst st'.
    unfold opened. cbn [fst snd]. destruct s as [h0 cs].
    now apply (oneCall_hook h0 h cs).
Qed.

Lemma regenerate_cases (seen : Seen.t) (fresh : Fresh.t) (st : Hook) :
  regenerateLastResponse seen fresh st = (st, None)
  \/ exists text,
       regenerateLastResponse seen fresh st
       = sendMessage seen fresh text (setMessages dropLastAssistant st).
Proof.
  unfold regenerateLastResponse.
  destruct (find _ _) as [u|]; [right; now exists (content u)|now left].
Qed.

Lemma act_oneCall (a : Action) (s : System) :
  oneCall s -> oneCall (act JSON_parse a s).
Proof.
  intro Hinv. destruct a as [fresh text| | |fresh|n net]; cbn [act].
  - now apply oneCall_opened.
  - destruct s as [h cs]. apply (oneCall_hook h); [| |exact Hinv];
      cbn [hook]; unfold stopStreaming, abortCurrent;
      destruct (abortControllerRef h) eqn:E; cbn; congruence.
  - destruct s as [h cs]. apply (oneCall_hook h); [| |exact Hinv];
      cbn [hook]; unfold resetChat, stopStreaming, abortCurrent;
      destruct (abortControllerRef h) eqn:E; cbn; congruence.
  - destruct (regenerate_cases (render (hook s)) fresh (hook s))
      as [E|[text E]]; rewrite E.
    + destruct s; exact Hinv.
    + now apply oneCall_opened.
  - destruct (nth_error (calls s) n) as [c|] eqn:En; [|exact Hinv].
    unfold oneCall in Hinv. destruct s as [h cs]. cbn [hook calls] in *.
    destruct cs as [|c0 [|c1 cs]]; [destruct n; discriminate En| |contradiction].
    destruct n as [|n]; [|destruct n; discriminate En].
    injection En as <-. destruct Hinv as [Hl Hr].
    destruct (resume JSON_parse net c0 h) as [h' [c'|]] eqn:E;
      unfold resumed, oneCall; cbn.
    + destruct (resume_continues _ _ _ _ _ E)
        as ((Hl' & Hr' & _) & (_ & Hk & _) & _).
      split; congruence.
    + destruct (resume_ends _ _ _ _ E) as (Hl' & Hr' & _). auto.
Qed.

Lemma play_oneCall (actions : list Action) (s : System) :
  oneCall s -> oneCall (play JSON_parse actions s).
Proof.
  unfold play. revert s.
  induction actions as [|a rest IH]; intros s H; cbn [fold_left];
    [exact H|].
  apply IH. now apply act_oneCall.
Qed.

(** X14. One call at a time.  Whatever the caller does with the callbacks of the
    current render and however the network answers, at most one call of
    [sendMessage] is in flight; [isLoading] is true exactly while there is
    one, and the controller reference then holds its controller and is
    empty otherwise. *)
Theorem one_call_at_a_time (v : Value) (actions : list Action) :
  let s := play JSON_parse actions (boot v) in
  length (calls s) <= 1
  /\ (isLoading (hook s) = true <-> calls s <> [])
  /\ abortControllerRef (hook s) = option_map Call.controller (head (calls s)).
Proof.
  intro s. assert (H : oneCall s).
  { apply play_oneCall. split; reflexivity. }
  unfold oneCall in H. destruct (calls s) as [|c [|c' cs]].
  - destruct H as [Hl Hr]. cbn. repeat split; auto; congruence.
  - destruct H as [Hl Hr]. cbn. repeat split; auto; discriminate.
  - contradiction.
Qed.

Lemma onePlaceholder_flags (h h' : Hook) (cs : list Call.t) :
  flags (messages h') = flags (messages h) ->
  onePlaceholder {| hook := h; calls := cs |} ->
  onePlaceholder {| hook := h'; calls := cs |}.
Proof.
  unfold onePlaceholder. cbn [hook calls]. intros ->. exact (fun H => H).
Qed.

Lemma onePlaceholder_firstn (h h' : Hook) (cs : list Call.t) (k : nat) :
  messages h' = firstn k (messages h) ->
  onePlaceholder {| hook := h; calls := cs |} ->
  onePlaceholder {| hook := h'; calls := cs |}.
Proof.
  unfold onePlaceholder. cbn [hook calls]. intros ->.
  assert (Hdec : flags (messages h)
                 = flags (firstn k (messages h)) ++ flags (skipn k (messages h))).
  { unfold flags. now rewrite <- map_app, firstn_skipn. }
  rewrite Hdec.
  destruct cs as [|c [|c' cs]]; [| |auto].
  - intro H. now apply Forall_app in H as [H _].
  - intros [H1 H2]. apply Forall_app in H1 as [H1 _].
    split; [exact H1|]. rewrite filter_app, length_app in H2. lia.
Qed.

Lemma dropLastAssistant_firstn (prev : list Message) :
  exists k, dropLastAssistant prev = firstn k prev.
Proof.
  unfold dropLastAssistant.
  destruct (lastIndexOf assistant (map role prev)) as [i|].
  - now exists i.
  - exists (length prev). symmetry. apply firstn_all.
Qed.

Lemma unused_firstn (i : string) (k : nat) (ms : list Message) :
  unused i ms -> unused i (firstn k ms).
Proof.
  unfold unused. intro H. rewrite <- (firstn_skipn k ms) in H.
  now apply Forall_app in H as [H _].
Qed.

Lemma unused_flags (i : string) (ms : list Message) :
  unused i ms ->
  filter (fun p => String.eqb (fst p) i) (flags ms) = [].
Proof.
  induction 1 as [|m ms Hm _ IH]; [reflexivity|].
  cbn. apply String.eqb_neq in Hm. now rewrite Hm.
Qed.

Lemma onePlaceholder_opened (seen : Seen.t) (fresh : Fresh.t) (text : string)
  (h h' : Hook) (c : Call.t) :
  sendMessage seen fresh text h = (h', Some c) ->
  unused (Fresh.assistantId fresh) (messages h) ->
  Fresh.userId fresh <> Fresh.assistantId fresh ->
  Forall (fun p => isTrue (snd p) = false) (flags (messages h)) ->
  onePlaceholder {| hook := h'; calls := [c] |}.
Proof.
  intros E Hold Hids Hnone.
  destruct (sendMessage_starts _ _ _ _ _ _ E) as (_ & _ & Hms & Hc & _).
  unfold onePlaceholder. cbn [hook calls]. rewrite Hms, Hc.
  cbn [Call.assistantId]. unfold flags. rewrite map_app. split.
  - apply Forall_app. split.
    + revert Hnone. apply Forall_impl. intros p Hp Hq. congruence.
    + repeat constructor; cbn; congruence.
  - rewrite filter_app, length_app.
    fold (flags (messages h)). rewrite (unused_flags _ _ Hold).
    cbn. apply String.eqb_neq in Hids. rewrite Hids, String.eqb_refl.
    cbn. lia.
Qed.

Lemma onePlaceholder_ended (c : Call.t) (h h' : Hook) (g : Message -> Message) :
  (forall m, id (g m) = id m /\ isStreaming (g m) = Some false) ->
  messages h' = mapAt (Call.assistantId c) g (messages h) ->
  onePlaceholder {| hook := h; calls := [c] |} ->
  onePlaceholder {| hook := h'; calls := [] |}.
Proof.
  unfold onePlaceholder. cbn [hook calls]. intros Hg -> [H _].
  unfold flags, mapAt in *. rewrite map_map.
  rewrite Forall_map in *. revert H. apply Forall_impl.
  intros m Hm. cbn [fst snd] in *.
  destruct (String.eqb (id m) (Call.assistantId c)) eqn:E.
  - now rewrite (proj2 (Hg m)).
  - destruct (isTrue (isStreaming m)) eqn:Et; [|reflexivity].
    apply String.eqb_neq in E. now destruct E; apply Hm.
Qed.

Lemma act_onePlaceholder (a : Action) (s : System) :
  oneCall s -> onePlaceholder s -> freshFor a s ->
  onePlaceholder (act JSON_parse a s).
Proof.
  intros Hone Hinv Hfresh.
  destruct a as [fresh text| | |fresh|n net]; cbn [act].
  - destruct Hfresh as [Hold Hids].
    destruct (sendMessage (render (hook s)) fresh text (hook s))
      as [h' [c|]] eqn:E.
    + destruct (sendMessage_starts _ _ _ _ _ _ E) as (_ & Hidle & _).
      pose proof (oneCall_idle s Hone Hidle) as Hcs.
      unfold opened. cbn [fst snd]. rewrite Hcs. cbn [app].
      apply (onePlaceholder_opened _ _ _ _ _ _ E Hold Hids).
      unfold onePlaceholder in Hinv. now rewrite Hcs in Hinv.
    + apply sendMessage_returns in E. subst h'. now destruct s.
  - destruct s as [h cs]. apply (onePlaceholder_flags h); [|exact Hinv].
    cbn [hook]. unfold stopStreaming, abortCurrent.
    now destruct (abortControllerRef h).
  - destruct s as [h cs]. unfold onePlaceholder in *. cbn [hook calls] in *.
    replace (messages (resetChat h)) with (@nil Message)
      by (unfold resetChat, stopStreaming, abortCurrent;
          now destruct (abortControllerRef h)).
    destruct cs as [|c [|c' cs]]; cbn; auto.
  - destruct Hfresh as [Hold Hids].
    destruct (regenerate_cases (render (hook s)) fresh (hook s))
      as [E|[text E]]; rewrite E.
    + now destruct s.
    + destruct (dropLastAssistant_firstn (messages (hook s))) as [k Hk].
      assert (Hcut : onePlaceholder
                       {| hook := setMessages dropLastAssistant (hook s);
                          calls := calls s |}).
      { destruct s as [h cs]. now apply (onePlaceholder_firstn h _ cs k). }
      destruct (sendMessage (render (hook s)) fresh text
                  (setMessages dropLastAssistant (hook s)))
        as [h' [c|]] eqn:E'.
      * destruct (sendMessage_starts _ _ _ _ _ _ E') as (_ & Hidle & _).
        pose proof (oneCall_idle s Hone Hidle) as Hcs.
        unfold opened. cbn [fst snd]. rewrite Hcs. cbn [app].
        apply (onePlaceholder_opened _ _ _ _ _ _ E').
        -- cbn [setMessages messages]. rewrite Hk. now apply unused_firstn.
        -- exact Hids.
        -- unfold onePlaceholder in Hcut. now rewrite Hcs in Hcut.
      * apply sendMessage_returns in E'. subst h'. exact Hcut.
  - destruct (nth_error (calls s) n) as [c|] eqn:En; [|exact Hinv].
    unfold oneCall in Hone. destruct s as [h cs]. cbn [hook calls] in *.
    destruct cs as [|c0 [|c1 cs]]; [destruct n; discriminate En| |contradiction].
    destruct n as [|n]; [|destruct n; discriminate En].
    injection En as <-.
    destruct (resume JSON_parse net c0 h) as [h' [c'|]] eqn:E;
      unfold resumed; cbn [fst snd firstn skipn app].
    + destruct (resume_continues _ _ _ _ _ E) as (_ & (Ha & _) & Hf).
      unfold onePlaceholder in *. cbn [hook calls] in *.
      now rewrite Hf, Ha.
    + destruct (resume_ends _ _ _ _ E) as (_ & _ & g & Hg & Hms).
      exact (onePlaceholder_ended c0 h h' g Hg Hms Hinv).
Qed.

Lemma play_invariants (actions : list Action) (s : System) :
  oneCall s -> onePlaceholder s -> freshIds JSON_parse actions s ->
  oneCall (play JSON_parse actions s)
  /\ onePlaceholder (play JSON_parse actions s).
Proof.
  unfold play. revert s.
  induction actions as [|a rest IH]; intros s H1 H2 H3; cbn [fold_left];
    [auto|].
  destruct H3 as [Ha Hrest].
  apply IH; [now apply act_oneCall|now apply act_onePlaceholder|exact Hrest].
Qed.

Lemma streaming_flags (ms : list Message) :
  length (streaming ms)
  = length (filter (fun p => isTrue (snd p)) (flags ms)).
Proof.
  unfold streaming, flags. induction ms as [|m ms IH]; [reflexivity|].
  cbn [map filter snd]. unfold isTrue at 1.
  destruct (isStreaming m) as [[|]|]; cbn [length]; now rewrite IH.
Qed.

Lemma filter_length_le {A : Type} (p q : A -> bool) (l : list A) :
  Forall (fun x => p x = true -> q x = true) l ->
  length (filter p l) <= length (filter q l).
Proof.
  induction 1 as [|x l Hx _ IH]; [reflexivity|].
  cbn [filter]. destruct (p x) eqn:Ep.
  - rewrite (Hx eq_refl). cbn. lia.
  - destruct (q x); cbn; lia.
Qed.

(** X15. At most one message streams.  When every placeholder gets an identifier
    that no message of the transcript carries, then whatever the caller does
    with the callbacks of the current render and however the network
    answers, at most one message of the transcript has [isStreaming] true,
    and none has once the hook is idle. *)
Theorem at_most_one_streaming_message (v : Value) (actions : list Action) :
  freshIds JSON_parse actions (boot v) ->
  let s := play JSON_parse actions (boot v) in
  length (streaming (messages (hook s))) <= 1
  /\ (isLoading (hook s) = false -> streaming (messages (hook s)) = []).
Proof.
  intros Hfresh s.
  destruct (play_invariants actions (boot v)) as [H1 H2];
    [split; reflexivity|constructor|exact Hfresh|].
  fold s in H1, H2.
  assert (Hidle : calls s = [] -> streaming (messages (hook s)) = []).
  { intro Hcs. unfold onePlaceholder in H2. rewrite Hcs in H2.
    apply length_zero_iff_nil. rewrite streaming_flags.
    apply length_zero_iff_nil.
    induction H2 as [|p l Hp _ IH]; [reflexivity|]. cbn. now rewrite Hp. }
  split.
  - unfold oneCall, onePlaceholder in *.
    destruct (calls s) as [|c [|c' cs]] eqn:Hcs; [| |contradiction].
    + rewrite (Hidle eq_refl). cbn. lia.
    + destruct H2 as [H2 H3]. rewrite streaming_flags.
      etransitivity; [|exact H3]. apply filter_length_le.
      revert H2. apply Forall_impl. intros p Hp Ht.
      apply String.eqb_eq. now apply Hp.
  - intro Hl. apply Hidle. now apply oneCall_idle.
Qed.

End SessionInvariants.

(** ** The further properties on concrete sessions *)

Section WorkedFurther.

Import Example.
Import Scenario.
Import Reader.

Local Open Scope list_scope.

Lemma completion_commits_answer_witness :
  exists st3 : Hook,
    resume parse Done
      (fst (reading [chunkOf [token_par; sources_2; token_tial]]))
      (snd (reading [chunkOf [token_par; sources_2; token_tial]]))
    = (st3, None)
    /\ map content (messages st3) = ["Q1"%string; "partial"%string]
    /\ map isStreaming (messages st3) = [None; Some false]
    /\ invalidated st3 = 1
    /\ toasts st3 = [].
Proof.
  destruct (completion_commits_answer parse (render start) fresh1 " Q1 "
              start (fst asking) call1
              [chunkOf [token_par; sources_2; token_tial]]
              (fst (reading [chunkOf [token_par; sources_2; token_tial]]))
              (snd (reading [chunkOf [token_par; sources_2; token_tial]])))
    as (st3 & H1 & H2 & H3 & H4 & _).
  - reflexivity.
  - constructor.
  - discriminate.
  - reflexivity.
  - reflexivity.
  - exists st3. split; [exact H1|]. rewrite H2, H3, H4.
    vm_compute. repeat split.
Defined.

Lemma failure_shows_failure_text_witness :
  exists st3 : Hook,
    resume parse (Rejected TypeError)
      (fst (reading [chunkOf [token_par]]))
      (snd (reading [chunkOf [token_par]]))
    = (st3, None)
    /\ map content (messages st3) = ["Q1"%string; failureText]
    /\ toasts st3 = [toastText].
Proof.
  destruct (failure_shows_failure_text parse (render start) fresh1 " Q1 "
              start (fst asking) call1 [chunkOf [token_par]]
              (fst (reading [chunkOf [token_par]]))
              (snd (reading [chunkOf [token_par]]))
              (Rejected TypeError))
    as (st3 & H1 & H2 & H3 & _).
  - reflexivity.
  - constructor.
  - discriminate.
  - reflexivity.
  - reflexivity.
  - reflexivity.
  - exists st3. split; [exact H1|]. rewrite H2, H3. split; reflexivity.
Defined.

Lemma reset_during_exchange_witness :
  abortControllerRef (fst asking) = Some (Call.controller call1)
  /\ exists st' : Hook,
       resume parse (Chunk (chunkOf [token_par])) call1 (resetChat (fst asking))
       = (st', None)
       /\ messages st' = []
       /\ isLoading st' = false.
Proof.
  split; [reflexivity|].
  destruct (reset_during_exchange parse call1 (fst asking)
              (Chunk (chunkOf [token_par])) eq_refl)
    as (_ & _ & _ & st' & H1 & H2 & _ & H3 & _).
  exists st'. auto.
Defined.

Lemma stop_after_the_end_is_noop_witness :
  stopStreaming (fst (resume parse Done call1 (fst asking)))
  = fst (resume parse Done call1 (fst asking)).
Proof.
  apply (stop_after_the_end_is_noop parse Done call1 (fst asking)).
  reflexivity.
Defined.

Lemma passed_over_lines_change_nothing_witness :
  processLines parse ([token_par] ++ sentinel :: [token_tial])
    (call1, fst asking)
  = processLines parse ([token_par] ++ [token_tial]) (call1, fst asking).
Proof.
  apply (passed_over_lines_change_nothing parse sentinel).
  right. left. reflexivity.
Defined.

Lemma known_conversation_is_kept_witness :
  conversationId
    (fst (run parse
            [Response true 200 true;
             Chunk (chunkOf [conversation_A; token_par]); Done]
            knownCall knownAsking))
  = known
  /\ created
       (fst (run parse
               [Response true 200 true;
                Chunk (chunkOf [conversation_A; token_par]); Done]
               knownCall knownAsking))
     = [].
Proof.
  apply (known_conversation_is_kept parse (render (useChat known)) fresh1
           " Q1 " (useChat known) knownAsking knownCall).
  - reflexivity.
  - reflexivity.
Defined.

Lemma content_only_grows_witness :
  exists shown : string,
    messages (snd (reading [chunkOf [token_par]]))
    = [userMessageOf fresh1 " Q1 "; withContent shown (placeholderOf fresh1)]
    /\ messages (snd (reading [chunkOf [token_par]; chunkOf [token_tial]]))
       = [ userMessageOf fresh1 " Q1 ";
           withContent (shown ++ "tial")%string (placeholderOf fresh1) ].
Proof.
  destruct (content_only_grows parse (render start) fresh1 " Q1 " start
              (fst asking) call1 [chunkOf [token_par]] [chunkOf [token_tial]]
              (fst (reading [chunkOf [token_par]]))
              (fst (reading [chunkOf [token_par]; chunkOf [token_tial]]))
              (snd (reading [chunkOf [token_par]]))
              (snd (reading [chunkOf [token_par]; chunkOf [token_tial]])))
    as (shown & H1 & H2).
  - reflexivity.
  - constructor.
  - discriminate.
  - reflexivity.
  - reflexivity.
  - exists shown. split; [exact H1|exact H2].
Defined.

Lemma regenerate_without_user_message_is_noop_witness :
  regenerateLastResponse (render start) fresh1 start = (start, None).
Proof.
  apply (regenerate_without_user_message_is_noop (render start) fresh1 start).
  constructor.
Defined.

Lemma regenerate_asks_the_last_question_again_witness :
  exists st1 c r,
    regenerateLastResponse (render answered) fresh2 answered = (st1, Some c)
    /\ requests st1 = requests answered ++ [r]
    /\ Request.message r = "Q1"%string
    /\ Request.conversation_id r = undefined.
Proof.
  apply (regenerate_asks_the_last_question_again (render answered) fresh2
           answered []
           [ {| id := "a1"; role := assistant; content := "A1";
                sources := Some (JArr []); timestamp := 1001;
                isStreaming := Some false |} ]
           (userMessageOf fresh1 " Q1 ")).
  - reflexivity.
  - reflexivity.
  - reflexivity.
  - repeat constructor.
  - vm_compute. discriminate.
Defined.

Lemma pages_stay_in_range_witness :
  (1 <= fold_left (PDFViewer.click 3)
          [PDFViewer.Prev; PDFViewer.Next; PDFViewer.Next; PDFViewer.Next;
           PDFViewer.Next] 1 <= 3)%Z.
Proof.
  apply (pages_stay_in_range 3 1). lia.
Defined.

Lemma filename_is_last_segment_witness :
  PDFViewer.filename url = "guide.pdf"%string.
Proof.
  apply (proj2 (proj2 (filename_is_last_segment url))
           "https://docs.example.org/files"%string "guide.pdf"%string).
  - reflexivity.
  - reflexivity.
  - discriminate.
Defined.

Lemma at_most_one_streaming_message_witness :
  length (streaming (messages (hook (play parse session (boot undefined)))))
  <= 1
  /\ map (fun m => (role m, content m, isStreaming m))
       (messages (hook (play parse session (boot undefined))))
     = [ (user, "Q1"%string, None);
         (user, "Q1"%string, None);
         (assistant, "Hello"%string, Some false) ].
Proof.
  split; [|reflexivity].
  apply (at_most_one_streaming_message parse undefined session).
  cbn [freshIds session]. unfold freshFor, unused.
  repeat split; try discriminate; vm_compute; repeat constructor;
    discriminate.
Defined.

End WorkedFurther.

(** ** What an exchange can touch *)

Section Footprint.

Local Open Scope list_scope.

Variable JSON_parse : string -> option JSON.

Lemma touchesOnly_refl (i : string) (ms : list Message) : touchesOnly i ms ms.
Proof. unfold touchesOnly. induction ms; constructor; auto. Qed.

Lemma touchesOnly_trans (i : string) (l1 l2 l3 : list Message) :
  touchesOnly i l1 l2 -> touchesOnly i l2 l3 -> touchesOnly i l1 l3.
Proof.
  unfold touchesOnly. intro H. revert l3.
  induction H as [|m1 m2 l1 l2 (Hi & Hr & Ht & Ho) _ IH]; intros l3 H';
    inversion H' as [|m2' m3 l2' l3' (Hi' & Hr' & Ht' & Ho') Hrest]; subst;
    constructor; [|now apply IH].
  repeat split; try congruence.
  intro Hne. rewrite Ho', (Ho Hne); [reflexivity|now rewrite (Ho Hne)].
Qed.

Lemma touchesOnly_mapAt (i : string) (f : Message -> Message)
  (ms : list Message) :
  (forall m, id (f m) = id m /\ role (f m) = role m
             /\ timestamp (f m) = timestamp m) ->
  touchesOnly i ms (mapAt i f ms).
Proof.
  intro Hf. unfold touchesOnly, mapAt.
  induction ms as [|m ms IH]; cbn [map]; constructor; [|exact IH].
  destruct (String.eqb (id m) i) eqn:E.
  - destruct (Hf m) as (H1 & H2 & H3). repeat split; auto.
    apply String.eqb_eq in E. contradiction.
  - auto.
Qed.

Lemma fold_touchesOnly (e : Event) (c : Call.t) (st : Hook) :
  touchesOnly (Call.assistantId c) (messages st)
    (messages (snd (fold e (c, st)))).
Proof.
  destruct e; cbn; try destruct (falsy (Call.conversationId c)); cbn;
    try apply touchesOnly_refl.
  all: apply touchesOnly_mapAt; intro m; repeat split; reflexivity.
Qed.

Lemma processLines_touchesOnly (lines : list string) (c : Call.t) (st : Hook) :
  touchesOnly (Call.assistantId c) (messages st)
    (messages (snd (processLines JSON_parse lines (c, st)))).
Proof.
  rewrite processLines_decode. revert c st.
  induction lines as [|line rest IH]; intros c st; cbn [fold_left];
    [apply touchesOnly_refl|].
  pose proof (fold_touchesOnly (decode JSON_parse line) c st) as H.
  pose proof (fold_frame JSON_parse (decode JSON_parse line) c st)
    as [(Ha & _) _].
  destruct (fold (decode JSON_parse line) (c, st)) as [c1 st1].
  cbn [fst snd] in *. apply (touchesOnly_trans _ _ _ _ H).
  rewrite <- Ha. apply IH.
Qed.

Lemma resume_touchesOnly (net : Settled) (c : Call.t) (st : Hook) :
  touchesOnly (Call.assistantId c) (messages st)
    (messages (fst (resume JSON_parse net c st))).
Proof.
  assert (Hcatch : forall e,
    touchesOnly (Call.assistantId c) (messages st)
      (messages (finally (catch e c st)))).
  { intro e. destruct e; cbn; apply touchesOnly_mapAt; intro m;
      repeat split; reflexivity. }
  unfold resume. destruct (await st c net) as [ok status body|chunk| |e].
  - destruct ok, body; cbn [negb fst];
      first [ apply touchesOnly_refl
            | exact (Hcatch (Error "No response body"))
            | exact (Hcatch (Error ("HTTP error! status: "
                                    ++ statusText status)%string)) ].
  - unfold readChunk.
    pose proof (processLines_touchesOnly (split chunk) c st) as H.
    destruct (processLines JSON_parse (split chunk) (c, st)). exact H.
  - cbn. apply touchesOnly_mapAt. intro m; repeat split; reflexivity.
  - exact (Hcatch e).
Qed.

(** X10. What an exchange can touch.  From the first await to its end, whatever
    it receives, a call neither adds, removes nor reorders messages, and
    never changes the identifier, the role or the timestamp of one; a
    message whose identifier is not the one of its placeholder stays exactly
    as it is. *)
Theorem exchange_touches_only_its_placeholder
  (nets : list Settled) (c : Call.t) (st : Hook) :
  touchesOnly (Call.assistantId c) (messages st)
    (messages (fst (run JSON_parse nets c st))).
Proof.
  revert c st. induction nets as [|net rest IH]; intros c st; cbn [run];
    [apply touchesOnly_refl|].
  pose proof (resume_touchesOnly net c st) as H.
  destruct (resume JSON_parse net c st) as [st' [c'|]] eqn:E;
    cbn [fst] in *; [|exact H].
  apply (touchesOnly_trans _ _ _ _ H).
  destruct (resume_continues JSON_parse _ _ _ _ _ E) as (_ & (Ha & _) & _).
  rewrite <- Ha. apply IH.
Qed.

End Footprint.
